(** * LOSC station tables: normalisation and aggregation pipeline

    A shallow embedding of the station-directory loader, the measurement
    decoder and the division / state aggregators of

      - scripts/generate_tables.py
      - scripts/weather_data_fetcher.py
      - data/weather_summary_with_coordinates.py

    Conventions of the embedding.

    - Python values that travel through the decoder (JSON payload slots,
      cells of a data frame) are the inductive type [pyval].
    - A Python [float] is an exact rational ([Qc]) or NaN: [pyfloat] is
      [option Qc] and [None] is NaN.  Rounding, infinities and overflow of
      IEEE doubles are outside the model.
    - Code that can raise returns a [result]: [Ok v] or [Raise e].
    - Text is [string]; a character is a code point below 256.
    - The builtin [float(str)] parser is a parameter of the development
      ([float_of_string]); [decimal_literal] is one concrete instance that is
      used to run examples. *)

From Stdlib Require Import QArith Qcanon.
From stdpp Require Import base tactics option list sorting numbers strings gmap.

(** ** Python exceptions and the result monad *)

Inductive exn : Set :=
  | TypeError
  | ValueError
  | IndexError
  | ZeroDivisionError
  | SystemExit (code : Z).

Inductive result (A : Type) : Type :=
  | Ok (a : A)
  | Raise (e : exn).
Arguments Ok {A} a.
Arguments Raise {A} e.

Global Instance result_ret : MRet result := λ A a, Ok a.
Global Instance result_fmap : FMap result := λ A B f m,
  match m with
  | Ok a => Ok (f a)
  | Raise e => Raise e
  end.
Global Instance result_bind : MBind result := λ A B k m,
  match m with
  | Ok a => k a
  | Raise e => Raise e
  end.

(** [try: m except: h] is a [try] block with a bare [except] clause. *)
Definition try_except {A} (m : result A) (h : result A) : result A :=
  match m with
  | Ok a => Ok a
  | Raise _ => h
  end.

Definition is_ok {A} (m : result A) : bool :=
  match m with Ok _ => true | Raise _ => false end.

(** ** Python text operations used by the loader *)

Module PyStr.

(** [str.isspace] on one character (code points below 256). *)
Definition is_space (c : Ascii.ascii) : bool :=
  match Strings.Ascii.N_of_ascii c with
  | 9 | 10 | 11 | 12 | 13 | 28 | 29 | 30 | 31 | 32 | 133 | 160 => true
  | _ => false
  end%N.

Fixpoint lstrip (s : string) : string :=
  match s with
  | String c s' => if is_space c then lstrip s' else s
  | EmptyString => EmptyString
  end.

Definition rstrip (s : string) : string :=
  String.rev (lstrip (String.rev s)).

(** [s.strip()] *)
Definition strip (s : string) : string := rstrip (lstrip s).

(** The longest prefix without white space, and what follows it. *)
Fixpoint span_word (s : string) : string * string :=
  match s with
  | String c s' =>
      if is_space c then (EmptyString, s)
      else let '(w, r) := span_word s' in (String c w, r)
  | EmptyString => (EmptyString, EmptyString)
  end.

(** [s.split(maxsplit=1)]: white space separated, at most one split; the
    remainder starts at its first non-blank character and runs to the end
    of the string. *)
Definition split_maxsplit1 (s : string) : list string :=
  match lstrip s with
  | EmptyString => []
  | s1 =>
      let '(w, r) := span_word s1 in
      match lstrip r with
      | EmptyString => [w]
      | r1 => [w; r1]
      end
  end.

Fixpoint take (n : nat) (s : string) : string :=
  match n, s with
  | S n', String c s' => String c (take n' s')
  | _, _ => EmptyString
  end.

Fixpoint drop (n : nat) (s : string) : string :=
  match n, s with
  | S n', String _ s' => drop n' s'
  | _, _ => s
  end.

(** [s[:-2]] *)
Definition but_last2 (s : string) : string := take (String.length s - 2) s.

(** [s[-2:]] *)
Definition last2 (s : string) : string := drop (String.length s - 2) s.

End PyStr.

(** ** Station directory (generate_tables.py, [load_station_list]) *)

Module Directory.

(** One directory entry: station id, display name, climate division. *)
Record entry : Type := Entry {
  station_id : string;
  file_station_name : string;
  clim_div : string
}.

(** The body of the [for line in f] loop; [None] is [continue]. *)
Definition parse_line (line : string) : option entry :=
  let line := PyStr.strip line in
  if decide (line = "") then None
  else
    match PyStr.split_maxsplit1 line with
    | [p0; p1] =>
        let raw_id := PyStr.strip p0 in
        let file_station_name := PyStr.strip p1 in
        let station_id := PyStr.but_last2 raw_id in
        let clim_div := "LA" +:+ PyStr.last2 raw_id in
        Some (Entry station_id file_station_name clim_div)
    | _ => None
    end.

Abbreviation station_dict := (gmap string (string * string)).

(** State of the loop: the dictionary and the list of requested ids. *)
Definition step (st : station_dict * list string) (line : string)
  : station_dict * list string :=
  match parse_line line with
  | Some e =>
      (<[station_id e := (file_station_name e, clim_div e)]> st.1,
       st.2 ++ [station_id e])
  | None => st
  end.

(** [load_station_list]; the argument is [None] when the file does not
    exist ([FileNotFoundError], answered with [sys.exit(1)]), and
    otherwise the lines of the file in order. *)
Definition load_station_list (file : option (list string))
  : result (station_dict * list string) :=
  match file with
  | None => Raise (SystemExit 1)
  | Some lines => Ok (foldl step (∅, []) lines)
  end.

(** The well-formed entries of a file, in file order. *)
Definition entries (lines : list string) : list entry :=
  omap parse_line lines.

End Directory.

(** ** Python values and floats *)

(** Closed equations between values that contain rationals: after
    evaluation the two sides agree up to the canonicity proofs inside [Qc],
    which [Qc_is_canon] identifies. *)
Ltac qc_eq :=
  vm_compute;
  repeat first
    [ reflexivity
    | apply Qc_is_canon; reflexivity
    | progress f_equal ].

(** A [float]: an exact rational, or NaN ([None]). *)
Abbreviation pyfloat := (option Qc).

Definition nan : pyfloat := None.

Definition num (z : Z) : Qc := Qc_of_Z z.

(** The missing-value sentinel [-999]. *)
Definition sentinel : Qc := num (-999).

#[warnings="-register-all"]
Inductive pyval : Type :=
  | PNone
  | PBool (b : bool)
  | PFloat (x : pyfloat)
  | PStr (s : string)
  | PList (l : list pyval).

Module Py.

(** [v == s] for a string literal [s]. *)
Definition eq_str (v : pyval) (s : string) : bool :=
  match v with
  | PStr s' => bool_decide (s' = s)
  | _ => false
  end.

(** The numeric reading of a value in arithmetic ([bool] is an [int]). *)
Definition as_number (v : pyval) : option pyfloat :=
  match v with
  | PFloat x => Some x
  | PBool b => Some (Some (if b then num 1 else num 0))
  | _ => None
  end.

(** [v == q] for a numeric literal [q]; NaN equals nothing. *)
Definition eq_num (v : pyval) (q : Qc) : bool :=
  match as_number v with
  | Some (Some x) => bool_decide (x = q)
  | _ => false
  end.

Definition fsub (x y : pyfloat) : pyfloat :=
  a ← x; b ← y; Some (a - b)%Qc.

Definition fmul (x y : pyfloat) : pyfloat :=
  a ← x; b ← y; Some (a * b)%Qc.

(** Division of floats; every call site guards against a zero divisor,
    for which NaN is returned here. *)
Definition fdiv (x y : pyfloat) : pyfloat :=
  a ← x; b ← y; if decide (b = num 0) then None else Some (a / b)%Qc.

(** [a - b] *)
Definition sub (a b : pyval) : result pyval :=
  match as_number a, as_number b with
  | Some x, Some y => Ok (PFloat (fsub x y))
  | _, _ => Raise TypeError
  end.

(** [a / b * 100] on Python floats. *)
Definition percent (a b : pyval) : result pyval :=
  match as_number a, as_number b with
  | Some x, Some y =>
      if bool_decide (y = Some (num 0)) then Raise ZeroDivisionError
      else Ok (PFloat (fmul (fdiv x y) (Some (num 100))))
  | _, _ => Raise TypeError
  end.

(** [l[i]] *)
Definition index (l : list pyval) (i : nat) : result pyval :=
  match l !! i with
  | Some v => Ok v
  | None => Raise IndexError
  end.

(** [pd.isna(v)] on a scalar. *)
Definition isna (v : pyval) : bool :=
  match v with
  | PNone | PFloat None => true
  | _ => false
  end.

(** The truth value of [v] in a condition. *)
Definition truthy (v : pyval) : bool :=
  match v with
  | PNone => false
  | PBool b => b
  | PFloat (Some q) => negb (bool_decide (q = num 0))
  | PFloat None => true
  | PStr s => negb (bool_decide (s = ""))
  | PList l => negb (bool_decide (length l = 0))
  end.

(** [v[1] if isinstance(v, list) and len(v) > 1 else d] *)
Definition second_or (v d : pyval) : pyval :=
  match v with
  | PList (_ :: x :: _) => x
  | _ => d
  end.

End Py.

(** ** The builtin number parser and the three [fix_missing] variants *)

Section decoder.

(** [float(s)] on a string: [None] when it raises [ValueError]. *)
Variable float_of_string : string → option pyfloat.

(** [float(v)] *)
Definition py_float (v : pyval) : result pyfloat :=
  match v with
  | PFloat x => Ok x
  | PBool b => Ok (Some (if b then num 1 else num 0))
  | PStr s =>
      match float_of_string s with
      | Some x => Ok x
      | None => Raise ValueError
      end
  | PNone | PList _ => Raise TypeError
  end.

(** generate_tables.py, [fix_missing] (nested in
    [process_station_data]). *)
Definition gt_fix_missing (val : pyval) : result pyval :=
  if Py.eq_str val "M" then Ok (PFloat (Some sentinel))
  else if Py.eq_str val "T" then Ok (PFloat (Some (num 0)))
  else try_except (PFloat <$> py_float val) (Ok val).

(** weather_summary_with_coordinates.py, [fix_missing]. *)
Definition wc_fix_missing (val : pyval) : result pyval :=
  if Py.eq_str val "M" then Ok (PFloat (Some sentinel))
  else if Py.eq_str val "T" then Ok (PFloat (Some (num 0)))
  else try_except (PFloat <$> py_float val) (Ok val).

(** weather_data_fetcher.py, [fix_missing]; it always returns a float. *)
Definition wdf_fix_missing (val : pyval) : result pyfloat :=
  if Py.eq_str val "M" then Ok nan
  else if Py.eq_str val "T" then Ok (Some (num 0))
  else try_except (py_float val) (Ok nan).

(** [pd.to_numeric(..., errors='coerce')] on one cell. *)
Definition to_numeric (v : pyval) : pyfloat :=
  match py_float v with
  | Ok x => x
  | Raise _ => nan
  end.

End decoder.

(** ** The upstream response *)

(** The [meta] block of a station entry; an absent key is [None]. *)
Record meta : Type := Meta {
  m_name : option string;
  m_climdiv : option string;
  m_sids : option (list string);
  m_ll : option (list pyval)
}.

(** One station entry of the response: [station.get('meta', {})] and
    [station.get('smry', [])]. *)
Record station : Type := Station {
  st_meta : meta;
  st_smry : list pyval
}.

(** [smry += [np.nan] * (17 - len(smry))] *)
Definition pad17 (smry : list pyval) : list pyval :=
  smry ++ replicate (17 - length smry) (PFloat nan).

(** ** Series reductions and [replace] *)

Module Series.

(** The entries of a column that are not NaN ([skipna=True]). *)
Definition valid (xs : list pyfloat) : list Qc := omap id xs.

Definition total (qs : list Qc) : Qc := foldr Qcplus (num 0) qs.

Definition count (qs : list Qc) : Qc := num (Z.of_nat (length qs)).

Definition Qcmax (a b : Qc) : Qc := if decide (a ≤ b)%Qc then b else a.

Definition Qcmin (a b : Qc) : Qc := if decide (a ≤ b)%Qc then a else b.

(** [Series.mean()]: NaN entries are skipped; NaN when nothing is left. *)
Definition mean (xs : list pyfloat) : pyfloat :=
  match valid xs with
  | [] => nan
  | qs => Some (total qs / count qs)%Qc
  end.

(** [Series.max()] *)
Definition max (xs : list pyfloat) : pyfloat :=
  match valid xs with
  | [] => nan
  | q :: qs => Some (foldr Qcmax q qs)
  end.

(** [Series.min()] *)
Definition min (xs : list pyfloat) : pyfloat :=
  match valid xs with
  | [] => nan
  | q :: qs => Some (foldr Qcmin q qs)
  end.

(** [replace(-999, np.nan)] on a float cell. *)
Definition replace_sentinel (x : pyfloat) : pyfloat :=
  match x with
  | Some q => if decide (q = sentinel) then nan else Some q
  | None => nan
  end.

(** [replace(-999, np.nan)] on a cell of an object column. *)
Definition replace_sentinel_val (v : pyval) : pyval :=
  match v with
  | PFloat x => PFloat (replace_sentinel x)
  | _ => v
  end.

End Series.

(** ** generate_tables.py *)

Module GenerateTables.

(** A row of the data frame, one field per entry of [out_columns].  The
    columns that [process_station_data] converts with [pd.to_numeric] and
    that stay numeric in every row are floats; the columns that hold text
    in some rows are [pyval].  [P_Max_Date] holds the value handed to
    [pd.to_datetime]; the date conversion itself is not modelled. *)
Record row : Type := Row {
  Station_Name : string;
  Station_Name_File : string;
  Climate_Division : string;
  Avg_T_Max : pyfloat;
  Avg_T_Min : pyfloat;
  T_Avg : pyfloat;
  T_Avg_DFN : pyfloat;
  Highest_T_Max : pyfloat;
  Lowest_T_Min : pyfloat;
  HDD : pyfloat;
  HDD_DFN : pyfloat;
  HDD_Normal : pyfloat;
  Percent_of_Normal_HDD : pyval;
  CDD : pyfloat;
  CDD_DFN : pyfloat;
  CDD_Normal : pyfloat;
  Percent_of_Normal_CDD : pyval;
  Total_P : pyfloat;
  Normal_P : pyfloat;
  P_DFN : pyfloat;
  One_Day_Max : pyfloat;
  P_Max_Date : pyval;
  P_Days : pyfloat;
  Missing_T_Avg : pyval;
  Missing_Total_P : pyval
}.

Section process.

Variable float_of_string : string → option pyfloat.

Abbreviation fix_missing := (gt_fix_missing float_of_string).
Abbreviation numeric := (to_numeric float_of_string).

(** [sid = meta.get('sids', [None])[0]], then [sid.strip()] when [sid]
    is truthy. *)
Definition first_sid (m : meta) : result (option string) :=
  match m_sids m with
  | None => Ok None
  | Some [] => Raise IndexError
  | Some (sid :: _) =>
      if bool_decide (sid = "") then Ok (Some sid)
      else Ok (Some (PyStr.strip sid))
  end.

(** [station_dict.get(sid, (meta.get('name', 'Unknown'),
    meta.get('climdiv', 'Unknown')))] *)
Definition identity (station_dict : Directory.station_dict) (m : meta)
    (sid : option string) : string * string :=
  let fallback := (default "Unknown" (m_name m),
                   default "Unknown" (m_climdiv m)) in
  match sid with
  | Some k => default fallback (station_dict !! k)
  | None => fallback
  end.

(** [np.nan if (a == -999 or b == -999) else a - b] *)
Definition guarded_sub (a b : pyval) : result pyval :=
  if Py.eq_num a sentinel || Py.eq_num b sentinel then Ok (PFloat nan)
  else Py.sub a b.

(** ['-' if pd.isna(norm) or norm == 0 else v / norm * 100] *)
Definition station_percent (v norm : pyval) : result pyval :=
  if Py.isna norm || Py.eq_num norm (num 0) then Ok (PStr "-")
  else Py.percent v norm.

(** The body of the loop over [stations_data], followed by the
    [pd.to_numeric] conversion of the numeric columns of the row. *)
Definition process_station (station_dict : Directory.station_dict)
    (s : station) : result row :=
  let m := st_meta s in
  sid ← first_sid m;
  let '(file_name, div) := identity station_dict m sid in
  let name := default file_name (m_name m) in
  let smry := pad17 (st_smry s) in
  atx ← Py.index smry 0 ≫= fix_missing;
  atn ← Py.index smry 1 ≫= fix_missing;
  tav ← Py.index smry 2 ≫= fix_missing;
  tdfn ← Py.index smry 3 ≫= fix_missing;
  htx ← Py.index smry 4 ≫= fix_missing;
  ltn ← Py.index smry 5 ≫= fix_missing;
  hdd ← Py.index smry 6 ≫= fix_missing;
  hdd_dfn ← Py.index smry 7 ≫= fix_missing;
  hdd_norm ← guarded_sub hdd hdd_dfn;
  pct_hdd ← station_percent hdd hdd_norm;
  cdd ← Py.index smry 8 ≫= fix_missing;
  cdd_dfn ← Py.index smry 9 ≫= fix_missing;
  cdd_norm ← guarded_sub cdd cdd_dfn;
  pct_cdd ← station_percent cdd cdd_norm;
  total_p ← Py.index smry 10 ≫= fix_missing;
  normal_p ← Py.index smry 11 ≫= fix_missing;
  p_diff ← guarded_sub total_p normal_p;
  od ← Py.index smry 12 ≫= fix_missing;
  md ← Py.index smry 13;
  let pdate := Py.second_or md (PStr "N/A") in
  pdays ← Py.index smry 14 ≫= fix_missing;
  tmc ← Py.index smry 15;
  let miss_t := Py.second_or tmc (PFloat nan) in
  pmc ← Py.index smry 16;
  let miss_p := Py.second_or pmc (PFloat nan) in
  Ok {| Station_Name := name;
        Station_Name_File := file_name;
        Climate_Division := div;
        Avg_T_Max := numeric atx;
        Avg_T_Min := numeric atn;
        T_Avg := numeric tav;
        T_Avg_DFN := numeric tdfn;
        Highest_T_Max := numeric htx;
        Lowest_T_Min := numeric ltn;
        HDD := numeric hdd;
        HDD_DFN := numeric hdd_dfn;
        HDD_Normal := numeric hdd_norm;
        Percent_of_Normal_HDD := pct_hdd;
        CDD := numeric cdd;
        CDD_DFN := numeric cdd_dfn;
        CDD_Normal := numeric cdd_norm;
        Percent_of_Normal_CDD := pct_cdd;
        Total_P := numeric total_p;
        Normal_P := numeric normal_p;
        P_DFN := numeric p_diff;
        One_Day_Max := numeric od;
        P_Max_Date := pdate;
        P_Days := numeric pdays;
        Missing_T_Avg := PFloat (numeric miss_t);
        Missing_Total_P := PFloat (numeric miss_p) |}.

(** [process_station_data]: the data frame of all stations, or the
    first exception. *)
Fixpoint process_station_data (stations_data : list station)
    (station_dict : Directory.station_dict) : result (list row) :=
  match stations_data with
  | [] => Ok []
  | s :: rest =>
      r ← process_station station_dict s;
      df ← process_station_data rest station_dict;
      Ok (r :: df)
  end.

End process.

(** [df.replace(-999, np.nan)], row by row. *)
Definition replace_row (r : row) : row :=
  {| Station_Name := Station_Name r;
     Station_Name_File := Station_Name_File r;
     Climate_Division := Climate_Division r;
     Avg_T_Max := Series.replace_sentinel (Avg_T_Max r);
     Avg_T_Min := Series.replace_sentinel (Avg_T_Min r);
     T_Avg := Series.replace_sentinel (T_Avg r);
     T_Avg_DFN := Series.replace_sentinel (T_Avg_DFN r);
     Highest_T_Max := Series.replace_sentinel (Highest_T_Max r);
     Lowest_T_Min := Series.replace_sentinel (Lowest_T_Min r);
     HDD := Series.replace_sentinel (HDD r);
     HDD_DFN := Series.replace_sentinel (HDD_DFN r);
     HDD_Normal := Series.replace_sentinel (HDD_Normal r);
     Percent_of_Normal_HDD :=
       Series.replace_sentinel_val (Percent_of_Normal_HDD r);
     CDD := Series.replace_sentinel (CDD r);
     CDD_DFN := Series.replace_sentinel (CDD_DFN r);
     CDD_Normal := Series.replace_sentinel (CDD_Normal r);
     Percent_of_Normal_CDD :=
       Series.replace_sentinel_val (Percent_of_Normal_CDD r);
     Total_P := Series.replace_sentinel (Total_P r);
     Normal_P := Series.replace_sentinel (Normal_P r);
     P_DFN := Series.replace_sentinel (P_DFN r);
     One_Day_Max := Series.replace_sentinel (One_Day_Max r);
     P_Max_Date := Series.replace_sentinel_val (P_Max_Date r);
     P_Days := Series.replace_sentinel (P_Days r);
     Missing_T_Avg := Series.replace_sentinel_val (Missing_T_Avg r);
     Missing_Total_P := Series.replace_sentinel_val (Missing_Total_P r) |}.

(** [df[c]] for the column read by the projection [c]. *)
Definition column {A} (c : row → A) (df : list row) : list A := c <$> df.

(** [(a / b * 100) if pd.notna(b) and b != 0 else np.nan] *)
Definition percent_of_normal (avg avg_norm : pyfloat) : pyfloat :=
  match avg_norm with
  | Some n =>
      if decide (n = num 0) then nan
      else Py.fmul (Py.fdiv avg avg_norm) (Some (num 100))
  | None => nan
  end.

(** [create_div_summary], nested in [create_divisional_summaries];
    [group['Climate Division'].iloc[0]] raises on an empty group. *)
Definition create_div_summary (group : list row) : result row :=
  let gd := replace_row <$> group in
  let avg_hdd := Series.mean (column HDD gd) in
  let avg_hdd_norm := Series.mean (column HDD_Normal gd) in
  let pct_hdd := percent_of_normal avg_hdd avg_hdd_norm in
  let avg_cdd := Series.mean (column CDD gd) in
  let avg_cdd_norm := Series.mean (column CDD_Normal gd) in
  let pct_cdd := percent_of_normal avg_cdd avg_cdd_norm in
  match column Climate_Division group with
  | [] => Raise IndexError
  | div :: _ =>
      Ok {| Station_Name := "Divisional Summary";
            Station_Name_File := "";
            Climate_Division := div;
            Avg_T_Max := Series.mean (column Avg_T_Max gd);
            Avg_T_Min := Series.mean (column Avg_T_Min gd);
            T_Avg := Series.mean (column T_Avg gd);
            T_Avg_DFN := Series.mean (column T_Avg_DFN gd);
            Highest_T_Max := Series.max (column Highest_T_Max gd);
            Lowest_T_Min := Series.min (column Lowest_T_Min gd);
            HDD := avg_hdd;
            HDD_DFN := Series.mean (column HDD_DFN gd);
            HDD_Normal := avg_hdd_norm;
            Percent_of_Normal_HDD := PFloat pct_hdd;
            CDD := avg_cdd;
            CDD_DFN := Series.mean (column CDD_DFN gd);
            CDD_Normal := avg_cdd_norm;
            Percent_of_Normal_CDD := PFloat pct_cdd;
            Total_P := Series.mean (column Total_P gd);
            Normal_P := Series.mean (column Normal_P gd);
            P_DFN := Series.mean (column P_DFN gd);
            One_Day_Max := Series.max (column One_Day_Max gd);
            P_Max_Date := PStr "";
            P_Days := Series.max (column P_Days gd);
            Missing_T_Avg := PStr "";
            Missing_Total_P := PStr "" |}
  end.

(** The keys of [df.groupby('Climate Division', sort=True)]: the distinct
    division codes in ascending order. *)
Definition group_keys (df : list row) : list string :=
  merge_sort String.le (remove_dups (column Climate_Division df)).

(** The groups, in key order; each keeps its rows in frame order. *)
Definition groupby (df : list row) : list (string * list row) :=
  (λ k, (k, filter (λ r, Climate_Division r = k) df)) <$> group_keys df.

(** The loop that fills [final_list], already concatenated: each group
    followed by its summary row. *)
Fixpoint interleave (divisions : list (string * list row))
    : result (list row) :=
  match divisions with
  | [] => Ok []
  | (_, group) :: rest =>
      summary ← create_div_summary group;
      tail ← interleave rest;
      Ok (group ++ summary :: tail)
  end.

(** [create_divisional_summaries]; [pd.concat] raises [ValueError] on an
    empty list of frames. *)
Definition create_divisional_summaries (df : list row) : result (list row) :=
  match groupby df with
  | [] => Raise ValueError
  | divisions => interleave divisions
  end.

(** The row returned by [create_state_summary]. *)
Record state_row : Type := StateRow {
  State_Station_Name : string;
  State_Climate_Division : string;
  State_Division_Name : string;
  State_Avg_T_Max : pyfloat;
  State_Avg_T_Min : pyfloat;
  State_T_Avg : pyfloat;
  State_T_Avg_DFN : pyfloat;
  State_Highest_T_Max : pyfloat;
  State_Lowest_T_Min : pyfloat;
  State_HDD : pyfloat;
  State_HDD_DFN : pyfloat;
  State_HDD_Normal : pyfloat;
  State_Percent_of_Normal_HDD : pyfloat;
  State_CDD : pyfloat;
  State_CDD_DFN : pyfloat;
  State_CDD_Normal : pyfloat;
  State_Percent_of_Normal_CDD : pyfloat;
  State_Total_P : pyfloat;
  State_Normal_P : pyfloat;
  State_P_DFN : pyfloat;
  State_One_Day_Max : pyfloat;
  State_P_Max_Date : string;
  State_P_Days : pyfloat
}.

(** [create_state_summary] *)
Definition create_state_summary (df_div : list row) : state_row :=
  let gd := replace_row <$> df_div in
  let avg_hdd := Series.mean (column HDD gd) in
  let avg_hdd_norm := Series.mean (column HDD_Normal gd) in
  let pct_hdd := percent_of_normal avg_hdd avg_hdd_norm in
  let avg_cdd := Series.mean (column CDD gd) in
  let avg_cdd_norm := Series.mean (column CDD_Normal gd) in
  let pct_cdd := percent_of_normal avg_cdd avg_cdd_norm in
  {| State_Station_Name := "State";
     State_Climate_Division := "";
     State_Division_Name := "State";
     State_Avg_T_Max := Series.mean (column Avg_T_Max gd);
     State_Avg_T_Min := Series.mean (column Avg_T_Min gd);
     State_T_Avg := Series.mean (column T_Avg gd);
     State_T_Avg_DFN := Series.mean (column T_Avg_DFN gd);
     State_Highest_T_Max := Series.max (column Highest_T_Max gd);
     State_Lowest_T_Min := Series.min (column Lowest_T_Min gd);
     State_HDD := avg_hdd;
     State_HDD_DFN := Series.mean (column HDD_DFN gd);
     State_HDD_Normal := avg_hdd_norm;
     State_Percent_of_Normal_HDD := pct_hdd;
     State_CDD := avg_cdd;
     State_CDD_DFN := Series.mean (column CDD_DFN gd);
     State_CDD_Normal := avg_cdd_norm;
     State_Percent_of_Normal_CDD := pct_cdd;
     State_Total_P := Series.mean (column Total_P gd);
     State_Normal_P := Series.mean (column Normal_P gd);
     State_P_DFN := Series.mean (column P_DFN gd);
     State_One_Day_Max := Series.max (column One_Day_Max gd);
     State_P_Max_Date := "";
     State_P_Days := Series.max (column P_Days gd) |}.

(** export_to_excel: the division sheet is
    [df_final[df_final['Station Name'] == 'Divisional Summary']] and the
    state row is computed from it.  (The inserted [Division Name] column
    is not read by [create_state_summary] and is left out.) *)
Definition division_sheet (df_final : list row) : list row :=
  filter (λ r, Station_Name r = "Divisional Summary") df_final.

Definition state_summary_of (df_final : list row) : state_row :=
  create_state_summary (division_sheet df_final).

(** The run of [main] from the response to the tables: decoded stations,
    the interleaved table and the state row of the division sheet. *)
Definition pipeline (float_of_string : string → option pyfloat)
    (stations_data : list station) (station_dict : Directory.station_dict)
    : result (list row * state_row) :=
  df ← process_station_data float_of_string stations_data station_dict;
  df_final ← create_divisional_summaries df;
  Ok (df_final, state_summary_of df_final).

End GenerateTables.

(** ** weather_data_fetcher.py *)

Module WeatherDataFetcher.

(** A row of the frame built by [process_data], one field per key of
    [row]. *)
Record row : Type := Row {
  Station_Name : string;
  Station_Name_File : string;
  Climate_Division : string;
  Latitude : pyval;
  Longitude : pyval;
  Avg_T_Max : pyfloat;
  Avg_T_Min : pyfloat;
  T_Avg : pyfloat;
  T_Avg_DFN : pyfloat;
  Highest_T_Max : pyfloat;
  Lowest_T_Min : pyfloat;
  HDD : pyfloat;
  HDD_DFN : pyfloat;
  CDD : pyfloat;
  CDD_DFN : pyfloat;
  Total_P : pyfloat;
  Normal_P : pyfloat;
  P_DFN : pyfloat;
  One_Day_Max : pyfloat;
  P_Max_Date : pyval;
  P_Days : pyfloat;
  Missing_T_Avg : pyval;
  Missing_Total_P : pyval
}.

(** The identity columns of a row. *)
Record identity : Type := Identity {
  api_name : string;
  file_name : string;
  clim_div : string
}.

(** [lookup_id = sids[0].strip() if sids else None] with
    [sids = meta.get("sids", [])]. *)
Definition lookup_id (m : meta) : option string :=
  match default [] (m_sids m) with
  | [] => None
  | sid :: _ => Some (PyStr.strip sid)
  end.

(** Lines 160 to 172 of [process_data]: the directory entry when
    [lookup_id] is truthy and a key of [stations], the upstream name and
    division (or ["Unknown"]) otherwise. *)
Definition resolve_identity (stations : Directory.station_dict) (m : meta)
    : identity :=
  let fallback := (default "Unknown" (m_name m),
                   default "Unknown" (m_climdiv m)) in
  let '(file_name, clim_div) :=
    match lookup_id m with
    | Some k =>
        if bool_decide (k = "") then fallback
        else default fallback (stations !! k)
    | None => fallback
    end in
  Identity (default file_name (m_name m)) file_name clim_div.

(** [a - b if not np.isnan(a) and not np.isnan(b) else np.nan] *)
Definition pcpn_dfn (total_p normal_p : pyfloat) : pyfloat :=
  match total_p, normal_p with
  | Some a, Some b => Some (a - b)%Qc
  | _, _ => nan
  end.

(** [latlon[i] if latlon[i] else np.nan] *)
Definition coordinate (latlon : list pyval) (i : nat) : result pyval :=
  v ← Py.index latlon i;
  Ok (if Py.truthy v then v else PFloat nan).

Section process.

Variable float_of_string : string → option pyfloat.

(** [datetime.strptime(s, '%Y%m%d').strftime('%m/%d')]; [None] when
    [strptime] raises [ValueError]. *)
Variable reformat_date : string → option string.

Abbreviation fix_missing := (wdf_fix_missing float_of_string).

(** The extraction of the peak-precipitation date. *)
Definition max_precip_date (slot : pyval) : result pyval :=
  let p_max_date := Py.second_or slot PNone in
  if Py.truthy p_max_date then
    match p_max_date with
    | PStr s =>
        match reformat_date s with
        | Some d => Ok (PStr d)
        | None => Raise ValueError
        end
    | _ => Raise TypeError
    end
  else Ok p_max_date.

(** The body of the loop over [station_data]. *)
Definition process_station (stations : Directory.station_dict) (s : station)
    : result row :=
  let m := st_meta s in
  let latlon := default [PNone; PNone] (m_ll m) in
  let ident := resolve_identity stations m in
  let summary := pad17 (st_smry s) in
  total_p ← Py.index summary 10 ≫= fix_missing;
  normal_p ← Py.index summary 11 ≫= fix_missing;
  let p_dfn := pcpn_dfn total_p normal_p in
  p_max_date ← Py.index summary 13 ≫= max_precip_date;
  tmc ← Py.index summary 15;
  let missing_tavg := Py.second_or tmc (PFloat (Some (num 0))) in
  pmc ← Py.index summary 16;
  let missing_totalp := Py.second_or pmc (PFloat (Some (num 0))) in
  lat ← coordinate latlon 0;
  lon ← coordinate latlon 1;
  atx ← Py.index summary 0 ≫= fix_missing;
  atn ← Py.index summary 1 ≫= fix_missing;
  tav ← Py.index summary 2 ≫= fix_missing;
  tdfn ← Py.index summary 3 ≫= fix_missing;
  htx ← Py.index summary 4 ≫= fix_missing;
  ltn ← Py.index summary 5 ≫= fix_missing;
  hdd ← Py.index summary 6 ≫= fix_missing;
  hdd_dfn ← Py.index summary 7 ≫= fix_missing;
  cdd ← Py.index summary 8 ≫= fix_missing;
  cdd_dfn ← Py.index summary 9 ≫= fix_missing;
  od ← Py.index summary 12 ≫= fix_missing;
  pdays ← Py.index summary 14 ≫= fix_missing;
  Ok {| Station_Name := api_name ident;
        Station_Name_File := file_name ident;
        Climate_Division := clim_div ident;
        Latitude := lat;
        Longitude := lon;
        Avg_T_Max := atx;
        Avg_T_Min := atn;
        T_Avg := tav;
        T_Avg_DFN := tdfn;
        Highest_T_Max := htx;
        Lowest_T_Min := ltn;
        HDD := hdd;
        HDD_DFN := hdd_dfn;
        CDD := cdd;
        CDD_DFN := cdd_dfn;
        Total_P := total_p;
        Normal_P := normal_p;
        P_DFN := p_dfn;
        One_Day_Max := od;
        P_Max_Date := p_max_date;
        P_Days := pdays;
        Missing_T_Avg := missing_tavg;
        Missing_Total_P := missing_totalp |}.

(** [process_data] on [api_response.get('data', [])]; an empty response
    gives an empty frame. *)
Fixpoint process_data (station_data : list station)
    (stations : Directory.station_dict) : result (list row) :=
  match station_data with
  | [] => Ok []
  | s :: rest =>
      r ← process_station stations s;
      df ← process_data rest stations;
      Ok (r :: df)
  end.

End process.

(** [DIVISIONS], in insertion order. *)
Definition DIVISIONS : list (string * string) :=
  [("LA01", "Northwest"); ("LA02", "North Central"); ("LA03", "Northeast");
   ("LA04", "West Central"); ("LA05", "Central"); ("LA06", "East Central");
   ("LA07", "Southwest"); ("LA08", "South Central"); ("LA09", "Southeast")].

(** A row of the frame returned by [calculate_division_summaries]. *)
Record summary : Type := Summary {
  S_Station_Name : string;
  S_Climate_Division : string;
  S_Avg_T_Max : pyfloat;
  S_Avg_T_Min : pyfloat;
  S_T_Avg : pyfloat;
  S_T_Avg_DFN : pyfloat;
  S_Highest_T_Max : pyfloat;
  S_Lowest_T_Min : pyfloat;
  S_HDD : pyfloat;
  S_CDD : pyfloat;
  S_Total_P : pyfloat;
  S_P_DFN : pyfloat;
  S_One_Day_Max : pyfloat;
  S_P_Days : pyfloat
}.

Definition column {A} (c : row → A) (df : list row) : list A := c <$> df.

(** The reductions shared by the division rows and the statewide row. *)
Definition summarize (name code : string) (data : list row) : summary :=
  {| S_Station_Name := name;
     S_Climate_Division := code;
     S_Avg_T_Max := Series.mean (column Avg_T_Max data);
     S_Avg_T_Min := Series.mean (column Avg_T_Min data);
     S_T_Avg := Series.mean (column T_Avg data);
     S_T_Avg_DFN := Series.mean (column T_Avg_DFN data);
     S_Highest_T_Max := Series.max (column Highest_T_Max data);
     S_Lowest_T_Min := Series.min (column Lowest_T_Min data);
     S_HDD := Series.mean (column HDD data);
     S_CDD := Series.mean (column CDD data);
     S_Total_P := Series.mean (column Total_P data);
     S_P_DFN := Series.mean (column P_DFN data);
     S_One_Day_Max := Series.max (column One_Day_Max data);
     S_P_Days := Series.max (column P_Days data) |}.

(** The loop over [DIVISIONS.items()]: empty divisions are skipped. *)
Definition division_summaries (df : list row) : list summary :=
  omap (λ '(div_code, div_name),
          match filter (λ r, Climate_Division r = div_code) df with
          | [] => None
          | div_data => Some (summarize (div_name +:+ " Division") div_code div_data)
          end) DIVISIONS.

(** The statewide row: reduced over the whole frame [df]. *)
Definition statewide (df : list row) : summary := summarize "STATE" "LA" df.

(** [calculate_division_summaries] *)
Definition calculate_division_summaries (df : list row) : list summary :=
  division_summaries df ++ [statewide df].

End WeatherDataFetcher.

(** ** weather_summary_with_coordinates.py *)

Module WeatherSummaryWithCoordinates.

(** A row appended to [weather_data], one field per entry of
    [out_columns]. *)
Record row : Type := Row {
  Station_Name : string;
  Station_Name_File : string;
  Climate_Division : string;
  Latitude : pyval;
  Longitude : pyval;
  Avg_T_Max : pyval;
  Avg_T_Min : pyval;
  T_Avg : pyval;
  T_Avg_DFN : pyval;
  Highest_T_Max : pyval;
  Lowest_T_Min : pyval;
  HDD : pyval;
  HDD_DFN : pyval;
  CDD : pyval;
  CDD_DFN : pyval;
  Total_P : pyval;
  Normal_P : pyval;
  P_DFN : pyval;
  One_Day_Max : pyval;
  P_Max_Date : pyval;
  P_Days : pyval;
  Missing_T_Avg : pyval;
  Missing_Total_P : pyval
}.

Section process.

Variable float_of_string : string → option pyfloat.

Abbreviation fix_missing := (wc_fix_missing float_of_string).

(** [pcpn_dfn = fix_missing(summary[10]) - fix_missing(summary[11])] *)
Definition pcpn_dfn (summary : list pyval) : result pyval :=
  a ← Py.index summary 10 ≫= fix_missing;
  b ← Py.index summary 11 ≫= fix_missing;
  Py.sub a b.

(** The body of the loop over [stations_data]. *)
Definition process_station (station_dict : Directory.station_dict)
    (s : station) : result row :=
  let m := st_meta s in
  let lookup_id := WeatherDataFetcher.lookup_id m in
  let latlon := default [PNone; PNone] (m_ll m) in
  let fallback := (default "Unknown Station" (m_name m),
                   default "Unknown Division" (m_climdiv m)) in
  let '(file_station_name, clim_div) :=
    match lookup_id with
    | Some k =>
        if bool_decide (k = "") then fallback
        else default fallback (station_dict !! k)
    | None => fallback
    end in
  let api_station_name := default file_station_name (m_name m) in
  let summary := pad17 (st_smry s) in
  p_dfn ← pcpn_dfn summary;
  md ← Py.index summary 13;
  let p_max_date := Py.second_or md (PStr "N/A") in
  tmc ← Py.index summary 15;
  let missing_tavg := Py.second_or tmc (PFloat nan) in
  pmc ← Py.index summary 16;
  let missing_totalp := Py.second_or pmc (PFloat nan) in
  lat ← Py.index latlon 0;
  lon ← Py.index latlon 1;
  atx ← Py.index summary 0 ≫= fix_missing;
  atn ← Py.index summary 1 ≫= fix_missing;
  tav ← Py.index summary 2 ≫= fix_missing;
  tdfn ← Py.index summary 3 ≫= fix_missing;
  htx ← Py.index summary 4 ≫= fix_missing;
  ltn ← Py.index summary 5 ≫= fix_missing;
  hdd ← Py.index summary 6 ≫= fix_missing;
  hdd_dfn ← Py.index summary 7 ≫= fix_missing;
  cdd ← Py.index summary 8 ≫= fix_missing;
  cdd_dfn ← Py.index summary 9 ≫= fix_missing;
  total_p ← Py.index summary 10 ≫= fix_missing;
  normal_p ← Py.index summary 11 ≫= fix_missing;
  od ← Py.index summary 12 ≫= fix_missing;
  pdays ← Py.index summary 14 ≫= fix_missing;
  Ok {| Station_Name := api_station_name;
        Station_Name_File := file_station_name;
        Climate_Division := clim_div;
        Latitude := lat;
        Longitude := lon;
        Avg_T_Max := atx;
        Avg_T_Min := atn;
        T_Avg := tav;
        T_Avg_DFN := tdfn;
        Highest_T_Max := htx;
        Lowest_T_Min := ltn;
        HDD := hdd;
        HDD_DFN := hdd_dfn;
        CDD := cdd;
        CDD_DFN := cdd_dfn;
        Total_P := total_p;
        Normal_P := normal_p;
        P_DFN := p_dfn;
        One_Day_Max := od;
        P_Max_Date := p_max_date;
        P_Days := pdays;
        Missing_T_Avg := missing_tavg;
        Missing_Total_P := missing_totalp |}.

End process.

End WeatherSummaryWithCoordinates.

(** ** A concrete number parser

    [decimal_literal] instantiates [float_of_string] on plain decimal
    literals (optional surrounding blanks, optional sign, digits with an
    optional fraction) and on ["nan"].  It is used to run the pipeline on
    examples; the general results do not depend on it. *)

Import (notations) Stdlib.Strings.Ascii.

Fixpoint scan_decimal (s : string) (dot : bool) (acc : Z) (frac digits : nat)
    : option (Z * nat) :=
  match s with
  | EmptyString => if digits is O then None else Some (acc, frac)
  | String c s' =>
      if bool_decide (c = "."%char) then
        if dot then None else scan_decimal s' true acc frac digits
      else
        match Ascii.is_nat c with
        | Some d =>
            scan_decimal s' dot (10 * acc + Z.of_nat d)
              (if dot then S frac else frac) (S digits)
        | None => None
        end
  end.

Definition decimal_literal (s : string) : option pyfloat :=
  let s := PyStr.strip s in
  if bool_decide (s = "nan") then Some nan
  else
    let '(sign, body) :=
      match s with
      | String "-"%char s' => ((-1)%Z, s')
      | String "+"%char s' => (1%Z, s')
      | _ => (1%Z, s)
      end in
    '(m, k) ← scan_decimal body false 0 0 0;
    Some (Some (Q2Qc (Qmake (sign * m) (Z.to_pos (10 ^ Z.of_nat k))))).

(** ** Reference definitions

    Definitions that state what the results below compare the code with. *)

(** The dictionary built from a list of entries, later entries
    overwriting earlier ones. *)
Definition dict_of (es : list Directory.entry) (d : Directory.station_dict)
    : Directory.station_dict :=
  foldl (λ d e, <[Directory.station_id e := (Directory.file_station_name e, Directory.clim_div e)]> d) d es.

(** The values of a measure over the members of a group that take part
    in a reduction: present (not NaN) and different from the missing
    sentinel. *)
Definition member_values (c : GenerateTables.row → pyfloat)
    (group : list GenerateTables.row) : list Qc :=
  filter (λ q, q ≠ sentinel) (omap c group).

(** The arithmetic mean of a list of rationals; absent for no value. *)
Definition arithmetic_mean (qs : list Qc) : option Qc :=
  match qs with
  | [] => None
  | _ => Some (foldr Qcplus (num 0) qs / num (Z.of_nat (length qs)))%Qc
  end.

(** Percent of normal from two reduced means: [raw / normal * 100], and
    "not computable" ([None]) when the normal mean is absent or zero. *)
Definition ratio_of_means_percent (raw normal : option Qc) : option Qc :=
  match normal with
  | None => None
  | Some n =>
      if decide (n = num 0) then None
      else match raw with
           | Some m => Some (m / n * num 100)%Qc
           | None => None
           end
  end.

(** The division summary rows of a frame, in division order: what
    [create_divisional_summaries] appends after each group. *)
Fixpoint summaries_of (divisions : list (string * list GenerateTables.row))
    : result (list GenerateTables.row) :=
  match divisions with
  | [] => Ok []
  | (_, group) :: rest =>
      summary ← GenerateTables.create_div_summary group;
      tail ← summaries_of rest;
      Ok (summary :: tail)
  end.

Definition division_summaries (df : list GenerateTables.row)
    : result (list GenerateTables.row) :=
  summaries_of (GenerateTables.groupby df).


(** ** Example inputs *)

(** A station entry as the upstream service sends it (values as text):
    the heating-degree-day sum and its departure from normal are given,
    the other slots are fixed. *)
Definition station_entry (sid name : string) (climdiv : option string)
    (hdd hdd_dfn : string) : station :=
  Station (Meta (Some name) climdiv (Some [sid]) None)
    [PStr "70.1"; PStr "50.2"; PStr "60.1"; PStr "1.5"; PStr "80"; PStr "40";
     PStr hdd; PStr hdd_dfn; PStr "0"; PStr "M"; PStr "1.25"; PStr "1.00";
     PStr "0.82"; PList [PStr "0.82"; PStr "20260115"]; PStr "3";
     PList [PStr "60.1"; PFloat (Some (num 0))];
     PList [PStr "1.25"; PFloat (Some (num 1))]].

(** The end-to-end scenario: a directory with two stations in division
    LA01 and one in LA02, and the response for them (arriving in another
    order).  Heating degree days 10 and 30 with normals 20 and 20 in LA01,
    5 with normal 10 in LA02. *)
Definition scenario_lines : list string :=
  ["00000101 ALPHA FIELD"; "00000201 BETA TOWN"; ""; "00000302 GAMMA CITY"].

Definition scenario_data : list station :=
  [station_entry "000001 " "ALPHA" None "10" "-10";
   station_entry "000003" "GAMMA" None "5" "-5";
   station_entry "000002" "BETA" None "30" "10"].

Definition scenario_run
    : result (list GenerateTables.row * GenerateTables.state_row) :=
  '(station_dict, _) ← Directory.load_station_list (Some scenario_lines);
  GenerateTables.pipeline decimal_literal scenario_data station_dict.

(** The same response decoded and summarised by weather_data_fetcher.py. *)
Definition scenario_run_fetcher (reformat_date : string → option string)
    : result (list WeatherDataFetcher.summary) :=
  '(stations, _) ← Directory.load_station_list (Some scenario_lines);
  df ← WeatherDataFetcher.process_data decimal_literal reformat_date
         scenario_data stations;
  Ok (WeatherDataFetcher.calculate_division_summaries df).

(** Three stations of one division with heating degree days 10, missing
    and 20; none of them is in the directory. *)
Definition sentinel_data : list station :=
  [station_entry "100001" "NORTH" (Some "LA05") "10" "-2";
   station_entry "100002" "MIDDLE" (Some "LA05") "M" "M";
   station_entry "100003" "SOUTH" (Some "LA05") "20" "4"].

(** A decoded station row with the given heating-degree-day sum and
    normal; the measures that play no role in the examples are NaN. *)
Definition sample_row (name div : string) (hdd hdd_normal : Z)
    : GenerateTables.row :=
  {| GenerateTables.Station_Name := name;
     GenerateTables.Station_Name_File := name;
     GenerateTables.Climate_Division := div;
     GenerateTables.Avg_T_Max := nan;
     GenerateTables.Avg_T_Min := nan;
     GenerateTables.T_Avg := nan;
     GenerateTables.T_Avg_DFN := nan;
     GenerateTables.Highest_T_Max := nan;
     GenerateTables.Lowest_T_Min := nan;
     GenerateTables.HDD := Some (num hdd);
     GenerateTables.HDD_DFN := Some (num (hdd - hdd_normal));
     GenerateTables.HDD_Normal := Some (num hdd_normal);
     GenerateTables.Percent_of_Normal_HDD := PStr "-";
     GenerateTables.CDD := nan;
     GenerateTables.CDD_DFN := nan;
     GenerateTables.CDD_Normal := nan;
     GenerateTables.Percent_of_Normal_CDD := PStr "-";
     GenerateTables.Total_P := nan;
     GenerateTables.Normal_P := nan;
     GenerateTables.P_DFN := nan;
     GenerateTables.One_Day_Max := nan;
     GenerateTables.P_Max_Date := PStr "N/A";
     GenerateTables.P_Days := nan;
     GenerateTables.Missing_T_Avg := PFloat nan;
     GenerateTables.Missing_Total_P := PFloat nan |}.

Definition sample_frame : list GenerateTables.row :=
  [sample_row "ALPHA" "LA01" 10 20;
   sample_row "GAMMA" "LA02" 5 10;
   sample_row "BETA" "LA01" 30 20].


(** A directory in which the station code 16053709 occurs twice. *)
Definition duplicate_lines : list string :=
  ["16053709 OLD NAME"; "16071502 OTHER PLACE"; "16053709   NEW NAME  "].

(** The raw encodings of a slot that the decoder distinguishes. *)
Inductive encoding : Type :=
  | Missing
  | Trace
  | Number (x : pyfloat)
  | Unparseable.

(** The encoding of a raw value: the missing marker ["M"], the trace
    marker ["T"], a number (a numeric value, or text that [float]
    accepts), or anything else. *)
Definition classify (float_of_string : string → option pyfloat) (v : pyval)
    : encoding :=
  match v with
  | PStr s =>
      if decide (s = "M") then Missing
      else if decide (s = "T") then Trace
      else match float_of_string s with
           | Some x => Number x
           | None => Unparseable
           end
  | PFloat x => Number x
  | PBool b => Number (Some (if b then num 1 else num 0))
  | PNone | PList _ => Unparseable
  end.

(** A summary array with the given total and normal precipitation (slots
    10 and 11) and without paired slots. *)
Definition summary_with_precip (total_p normal_p : pyval) : list pyval :=
  [PStr "70.1"; PStr "50.2"; PStr "60.1"; PStr "1.5"; PStr "80"; PStr "40";
   PStr "12"; PStr "-3"; PStr "0"; PStr "M"; total_p; normal_p;
   PStr "0.82"; PStr "0.82"; PStr "3"].

(** A station entry whose list of alternate identifiers is empty. *)
Definition station_without_sids : station :=
  Station (Meta (Some "DELTA") (Some "LA03") (Some []) None)
    (summary_with_precip (PStr "1.25") (PStr "1.00")).

(** A station entry without the [sids] key and without paired
    missing-day counts. *)
Definition station_without_counts : station :=
  Station (Meta (Some "DELTA") (Some "LA03") None None)
    (summary_with_precip (PStr "1.25") (PStr "1.00")).

(** The slot [i] of the padded summary array of a station entry. *)
Definition slot_of (s : station) (i : nat) : pyval :=
  default (PFloat nan) (pad17 (st_smry s) !! i).

(** [isinstance(v, list) and len(v) > 1] *)
Definition is_pair (v : pyval) : bool :=
  match v with
  | PList (_ :: _ :: _) => true
  | _ => false
  end.

(** ** Further parts of the scripts *)

Module ExportFiles.

(** [s.rsplit('.', 1)]: the text before the last dot and the text after
    it; no second part when [s] has no dot. *)
Fixpoint rsplit_dot (s : string) : string * option string :=
  match s with
  | EmptyString => (EmptyString, None)
  | String c s' =>
      match rsplit_dot s' with
      | (b, Some e) => (String c b, Some e)
      | (_, None) =>
          if bool_decide (c = "."%char) then (EmptyString, Some s')
          else (String c s', None)
      end
  end.

(** [base_name = output_file.rsplit('.', 1)[0]] *)
Definition base_name (output_file : string) : string :=
  (rsplit_dot output_file).1.

(** export_to_csv: the names of the stations file and of the divisions
    file. *)
Definition csv_files (output_file : string) : string * string :=
  (base_name output_file +:+ "_stations.csv",
   base_name output_file +:+ "_divisions.csv").

(** export_to_html: the name of the page. *)
Definition html_file (output_file : string) : string :=
  base_name output_file +:+ ".html".

End ExportFiles.

Module Main.

(** fetch_acis_data, after the transport: [data.get('data', [])], and
    [sys.exit(1)] when no station came back. *)
Definition received (stations_data : list station) : result (list station) :=
  match stations_data with
  | [] => Raise (SystemExit 1)
  | _ => Ok stations_data
  end.

(** generate_tables.py, [main], from the station file and the response to
    the assembled table. *)
Definition run (float_of_string : string → option pyfloat)
    (file : option (list string)) (response : list station)
    : result (list GenerateTables.row) :=
  '(station_dict, requested_ids) ← Directory.load_station_list file;
  stations_data ← received response;
  df ← GenerateTables.process_station_data float_of_string stations_data
         station_dict;
  GenerateTables.create_divisional_summaries df.

End Main.

Module FetcherDirectory.

(** A Python [dict] with its insertion order: assigning to a key that is
    present replaces the value in place, a new key goes to the end. *)
Fixpoint assign {V} (k : string) (v : V) (d : list (string * V))
    : list (string * V) :=
  match d with
  | [] => [(k, v)]
  | (k', v') :: d' =>
      if decide (k' = k) then (k, v) :: d' else (k', v') :: assign k v d'
  end.

(** weather_data_fetcher.py, [load_stations], on the lines of the file. *)
Definition load_stations (lines : list string)
    : list (string * (string * string)) :=
  foldl (λ stations line,
           match Directory.parse_line line with
           | Some e =>
               assign (Directory.station_id e)
                 (Directory.file_station_name e, Directory.clim_div e) stations
           | None => stations
           end) [] lines.

(** [stations.keys()], the ids that [fetch_station_data] joins into the
    request. *)
Definition request_ids (stations : list (string * (string * string)))
    : list string :=
  stations.*1.

End FetcherDirectory.

(** Every character of a text satisfies a test. *)
Fixpoint string_forall (P : Ascii.ascii → bool) (s : string) : bool :=
  match s with
  | EmptyString => true
  | String c s' => P c && string_forall P s'
  end.



(** The value that the [fix_missing] of generate_tables.py returns for a
    raw value, by its encoding. *)
Definition gt_decoded (float_of_string : string → option pyfloat)
    (v : pyval) : pyval :=
  match classify float_of_string v with
  | Missing => PFloat (Some sentinel)
  | Trace => PFloat (Some (num 0))
  | Number x => PFloat x
  | Unparseable => v
  end.

(** Lines 254, 260 and 266 of generate_tables.py on decoded floats: the
    difference of a value and its companion, missing when either is the
    sentinel. *)
Definition difference_unless_missing (v w : pyfloat) : pyfloat :=
  if decide (v = Some sentinel ∨ w = Some sentinel) then nan
  else Py.fsub v w.

(** Lines 255 and 261 of generate_tables.py on decoded floats: the station
    percent, a dash when the normal is missing or zero. *)
Definition percent_cell (v norm : pyfloat) : pyval :=
  match norm with
  | None => PStr "-"
  | Some n =>
      if decide (n = num 0) then PStr "-"
      else PFloat (Py.fmul (Py.fdiv v norm) (Some (num 100)))
  end.

(** A station entry whose heating-degree-day slot holds text that is no
    number. *)
Definition station_with_text_hdd : station :=
  station_entry "100001" "NORTH" (Some "LA05") "n/a" "-2".

(** A decoded station row with the given highest maximum and lowest
    minimum temperature and heating degree days with their normal. *)
Definition measured_row (name div : string)
    (highest lowest hdd hdd_normal : Z) : GenerateTables.row :=
  {| GenerateTables.Station_Name := name;
     GenerateTables.Station_Name_File := name;
     GenerateTables.Climate_Division := div;
     GenerateTables.Avg_T_Max := nan;
     GenerateTables.Avg_T_Min := nan;
     GenerateTables.T_Avg := nan;
     GenerateTables.T_Avg_DFN := nan;
     GenerateTables.Highest_T_Max := Some (num highest);
     GenerateTables.Lowest_T_Min := Some (num lowest);
     GenerateTables.HDD := Some (num hdd);
     GenerateTables.HDD_DFN := Some (num (hdd - hdd_normal));
     GenerateTables.HDD_Normal := Some (num hdd_normal);
     GenerateTables.Percent_of_Normal_HDD := PStr "-";
     GenerateTables.CDD := nan;
     GenerateTables.CDD_DFN := nan;
     GenerateTables.CDD_Normal := nan;
     GenerateTables.Percent_of_Normal_CDD := PStr "-";
     GenerateTables.Total_P := nan;
     GenerateTables.Normal_P := nan;
     GenerateTables.P_DFN := nan;
     GenerateTables.One_Day_Max := nan;
     GenerateTables.P_Max_Date := PStr "N/A";
     GenerateTables.P_Days := nan;
     GenerateTables.Missing_T_Avg := PFloat nan;
     GenerateTables.Missing_Total_P := PFloat nan |}.


(** The float that the [fix_missing] of weather_data_fetcher.py returns
    for a raw value, by its encoding. *)
Definition wdf_decoded (float_of_string : string → option pyfloat)
    (v : pyval) : pyfloat :=
  match classify float_of_string v with
  | Missing => nan
  | Trace => Some (num 0)
  | Number x => x
  | Unparseable => nan
  end.

(** A text without a dot. *)
Definition no_dot (s : string) : bool :=
  string_forall (λ c, negb (bool_decide (c = "."%char))) s.




(** * Results *)

Example dec1 : decimal_literal " -12.50 " = Some (Some (Q2Qc (-25 # 2))).
Proof. qc_eq. Qed.
Example dec2 : decimal_literal "10" = Some (Some (num 10)).
Proof. qc_eq. Qed.
Example dec3 : decimal_literal "1.2.3" = None.
Proof. qc_eq. Qed.
Example dec4 : decimal_literal "M" = None.
Proof. qc_eq. Qed.

(** ** The station directory *)

Section directory_facts.

Import Directory.

Lemma foldl_step_entries lines d ids :
  foldl step (d, ids) lines =
  (dict_of (entries lines) d, ids ++ (station_id <$> entries lines)).
Proof.
  revert d ids. induction lines as [|line lines IH]; intros d ids; simpl.
  - by rewrite app_nil_r.
  - unfold entries, step; simpl.
    destruct (parse_line line) as [e|] eqn:He; simpl.
    + rewrite IH. unfold entries. simpl. by rewrite <-app_assoc.
    + by rewrite IH.
Qed.

Lemma dict_of_snoc es e d :
  dict_of (es ++ [e]) d =
  <[station_id e := (file_station_name e, clim_div e)]> (dict_of es d).
Proof. unfold dict_of. by rewrite foldl_app. Qed.

Lemma dict_of_lookup es k :
  dict_of es ∅ !! k =
  (λ e, (file_station_name e, clim_div e)) <$>
    last (filter (λ e, station_id e = k) es).
Proof.
  induction es as [|e es IH] using rev_ind; [done|].
  rewrite dict_of_snoc, filter_app.
  destruct (decide (station_id e = k)) as [<-|Hne].
  - rewrite lookup_insert_eq, filter_cons_True by done.
    rewrite filter_nil. by rewrite last_snoc.
  - rewrite lookup_insert_ne, IH by done.
    rewrite filter_cons_False by done. rewrite filter_nil. by rewrite app_nil_r.
Qed.

Lemma short_code_derivation raw_id :
  String.length raw_id < 2 →
  PyStr.but_last2 raw_id = "" ∧ PyStr.last2 raw_id = raw_id.
Proof.
  destruct raw_id as [|a [|b s]]; simpl; intros; try done. lia.
Qed.

End directory_facts.

(** ** Series reductions *)

Section series_facts.

Import Series.












Lemma mean_arithmetic (xs : list pyfloat) :
  mean xs = arithmetic_mean (valid xs).
Proof. unfold mean, arithmetic_mean. by destruct (valid xs). Qed.

End series_facts.

(** ** Division and state reductions of generate_tables.py *)

Section aggregation_facts.

Import GenerateTables.

Lemma percent_of_normal_ratio (avg avg_norm : pyfloat) :
  percent_of_normal avg avg_norm = ratio_of_means_percent avg avg_norm.
Proof.
  unfold percent_of_normal, ratio_of_means_percent.
  destruct avg_norm as [n|]; [|done].
  destruct (decide (n = num 0)) as [|Hn]; [done|].
  destruct avg as [m|]; simpl; [|done].
  by rewrite decide_False by done.
Qed.

(** The non-NaN entries of a numeric column after [replace(-999, np.nan)]
    are the member values of that column. *)
Lemma valid_column_replaced (c : row → pyfloat) (g : list row) :
  (∀ r, c (replace_row r) = Series.replace_sentinel (c r)) →
  Series.valid (column c (replace_row <$> g)) = member_values c g.
Proof.
  intros Hc. unfold column, member_values.
  rewrite <-list_fmap_compose.
  induction g as [|r g IH]; simpl; [done|].
  rewrite Hc. unfold Series.valid in *.
  destruct (c r) as [q|]; simpl; [|exact IH].
  destruct (decide (q = sentinel)) as [->|Hq]; simpl.
  - rewrite filter_cons_False by (intros ?; done). exact IH.
  - rewrite filter_cons_True by done. f_equal. exact IH.
Qed.

Lemma mean_column_replaced (c : row → pyfloat) (g : list row) :
  (∀ r, c (replace_row r) = Series.replace_sentinel (c r)) →
  Series.mean (column c (replace_row <$> g)) =
  arithmetic_mean (member_values c g).
Proof.
  intros Hc. by rewrite mean_arithmetic, valid_column_replaced.
Qed.


Lemma create_div_summary_ok (r : row) (rest : list row) :
  ∃ s, create_div_summary (r :: rest) = Ok s.
Proof. unfold create_div_summary. simpl. eauto. Qed.








Lemma group_uniform (k : string) (df : list row) :
  Forall (λ r, Climate_Division r = k)
    (filter (λ r, Climate_Division r = k) df).
Proof. apply Forall_forall. by intros r [? _]%list_elem_of_filter. Qed.




End aggregation_facts.

(** C2: for every (non-empty) division group the summary row's percent of
    normal, for heating and for cooling degree days, is the ratio of the
    two reduced means times 100: the mean of the members' raw values over
    the mean of the members' normal values, each taken over the values
    that are present and not the sentinel.  It is the "not computable"
    marker (NaN) whenever the reduced normal mean is absent or zero. *)
Theorem C2_division_percent_is_ratio_of_means
    (r : GenerateTables.row) (rest : list GenerateTables.row) :
  ∃ s, GenerateTables.create_div_summary (r :: rest) = Ok s ∧
    GenerateTables.Percent_of_Normal_HDD s =
      PFloat (ratio_of_means_percent
        (arithmetic_mean (member_values GenerateTables.HDD (r :: rest)))
        (arithmetic_mean (member_values GenerateTables.HDD_Normal (r :: rest)))) ∧
    GenerateTables.Percent_of_Normal_CDD s =
      PFloat (ratio_of_means_percent
        (arithmetic_mean (member_values GenerateTables.CDD (r :: rest)))
        (arithmetic_mean (member_values GenerateTables.CDD_Normal (r :: rest)))).
Proof.
  destruct (create_div_summary_ok r rest) as [s Hs].
  exists s. split; [done|].
  unfold GenerateTables.create_div_summary in Hs. simpl in Hs.
  injection Hs as <-. simpl.
  rewrite !percent_of_normal_ratio.
  split; f_equal; f_equal;
    by rewrite <-(mean_column_replaced _ (r :: rest)).
Qed.

(** C3: for every (non-empty) division group the means of the summary row
    are taken over the member values that are present and are not the
    missing sentinel: sentinel values are dropped before averaging.  In
    particular a division whose stations report heating degree days 10,
    missing ("M", decoded to the sentinel -999) and 20 gets the divisional
    mean 15, and not (10 + (-999) + 20) / 3 = -323. *)
Theorem C3_sentinel_excluded_before_averaging :
  (∀ (r : GenerateTables.row) (rest : list GenerateTables.row),
     ∃ s, GenerateTables.create_div_summary (r :: rest) = Ok s ∧
       let mean_of c := arithmetic_mean (member_values c (r :: rest)) in
       GenerateTables.HDD s = mean_of GenerateTables.HDD ∧
       GenerateTables.HDD_DFN s = mean_of GenerateTables.HDD_DFN ∧
       GenerateTables.HDD_Normal s = mean_of GenerateTables.HDD_Normal ∧
       GenerateTables.CDD s = mean_of GenerateTables.CDD ∧
       GenerateTables.CDD_DFN s = mean_of GenerateTables.CDD_DFN ∧
       GenerateTables.CDD_Normal s = mean_of GenerateTables.CDD_Normal ∧
       GenerateTables.Avg_T_Max s = mean_of GenerateTables.Avg_T_Max ∧
       GenerateTables.Avg_T_Min s = mean_of GenerateTables.Avg_T_Min ∧
       GenerateTables.T_Avg s = mean_of GenerateTables.T_Avg ∧
       GenerateTables.T_Avg_DFN s = mean_of GenerateTables.T_Avg_DFN ∧
       GenerateTables.Total_P s = mean_of GenerateTables.Total_P ∧
       GenerateTables.Normal_P s = mean_of GenerateTables.Normal_P ∧
       GenerateTables.P_DFN s = mean_of GenerateTables.P_DFN) ∧
  (∃ df s,
     GenerateTables.process_station_data decimal_literal sentinel_data ∅
       = Ok df ∧
     GenerateTables.HDD <$> df = [Some (num 10); Some sentinel; Some (num 20)] ∧
     GenerateTables.create_div_summary df = Ok s ∧
     GenerateTables.HDD s = Some (num 15) ∧
     GenerateTables.HDD s ≠ Some (num (-323))).
Proof.
  split.
  - intros r rest.
    destruct (create_div_summary_ok r rest) as [s Hs].
    exists s. split; [done|].
    unfold GenerateTables.create_div_summary in Hs. simpl in Hs.
    injection Hs as <-. simpl.
    repeat split; by rewrite <-(mean_column_replaced _ (r :: rest)).
  - eexists _, _. split; [vm_compute; reflexivity|].
    split; [qc_eq|].
    split; [vm_compute; reflexivity|].
    split; [qc_eq|].
    intros H. vm_compute in H. discriminate H.
Qed.



(** C10: for every directory file, the identifier list has one entry per
    well-formed line, in file order, while the mapping holds for each
    station id the display name and division of the last well-formed line
    with that id.  A station code that occurs twice is therefore requested
    twice but mapped once, to its later line. *)
Theorem C10_duplicates_last_wins_but_ids_repeat :
  (∀ lines : list string,
     ∃ station_dict requested_ids,
       Directory.load_station_list (Some lines)
         = Ok (station_dict, requested_ids) ∧
       requested_ids = Directory.station_id <$> Directory.entries lines ∧
       ∀ k : string,
         station_dict !! k =
         (λ e, (Directory.file_station_name e, Directory.clim_div e)) <$>
           last (filter (λ e, Directory.station_id e = k)
                   (Directory.entries lines))) ∧
  Directory.load_station_list (Some duplicate_lines) =
    Ok (<["160537" := ("NEW NAME", "LA09")]>
          (<["160715" := ("OTHER PLACE", "LA02")]> ∅),
        ["160537"; "160715"; "160537"]).
Proof.
  split.
  - intros lines. unfold Directory.load_station_list.
    rewrite foldl_step_entries. eexists _, _. split; [done|].
    split; [done|]. intros k. apply dict_of_lookup.
  - vm_compute. reflexivity.
Qed.

(** C6 (amended): loading never rejects a short station code.  For every
    file that exists the loader returns a directory; a line whose station
    code has fewer than two characters is accepted like any other line: it
    yields the empty station id and the division code "LA" followed by the
    whole code, the empty id is requested, and the directory has an entry
    for it. *)
Theorem C6_short_codes_are_loaded (lines : list string) (line p0 p1 : string) :
  line ∈ lines →
  PyStr.strip line ≠ "" →
  PyStr.split_maxsplit1 (PyStr.strip line) = [p0; p1] →
  String.length (PyStr.strip p0) < 2 →
  Directory.parse_line line =
    Some (Directory.Entry "" (PyStr.strip p1) ("LA" +:+ PyStr.strip p0)) ∧
  ∃ station_dict requested_ids,
    Directory.load_station_list (Some lines)
      = Ok (station_dict, requested_ids) ∧
    "" ∈ requested_ids ∧
    is_Some (station_dict !! "").
Proof.
  intros Hin Hline Hsplit Hlen.
  assert (Hparse : Directory.parse_line line =
    Some (Directory.Entry "" (PyStr.strip p1) ("LA" +:+ PyStr.strip p0))).
  { unfold Directory.parse_line. rewrite decide_False by done.
    rewrite Hsplit.
    by destruct (short_code_derivation _ Hlen) as [-> ->]. }
  split; [exact Hparse|].
  assert (He : Directory.Entry "" (PyStr.strip p1) ("LA" +:+ PyStr.strip p0)
               ∈ Directory.entries lines).
  { unfold Directory.entries. apply list_elem_of_omap. eauto. }
  unfold Directory.load_station_list. rewrite foldl_step_entries.
  eexists _, _. split; [done|]. split.
  - simpl. apply list_elem_of_fmap. eexists. split; [|exact He]. done.
  - rewrite dict_of_lookup. apply fmap_is_Some.
    destruct (filter _ (Directory.entries lines)) as [|e es] eqn:E.
    + assert (Hf : Directory.Entry "" (PyStr.strip p1)
                      ("LA" +:+ PyStr.strip p0)
                   ∈ filter (λ e, Directory.station_id e = "")
                       (Directory.entries lines))
        by (apply list_elem_of_filter; split; [done|exact He]).
      rewrite E in Hf. by apply elem_of_nil in Hf.
    + rewrite last_cons. destruct (last es); eauto.
Qed.

Lemma C6_short_codes_are_loaded_witness :
  Directory.parse_line "A Alpha" = Some (Directory.Entry "" "Alpha" "LAA") ∧
  ∃ station_dict requested_ids,
    Directory.load_station_list (Some ["16053709 BATON ROUGE"; "A Alpha"])
      = Ok (station_dict, requested_ids) ∧
    "" ∈ requested_ids ∧
    is_Some (station_dict !! "").
Proof.
  apply (C6_short_codes_are_loaded
           ["16053709 BATON ROUGE"; "A Alpha"] "A Alpha" "A" "Alpha").
  - right; left.
  - vm_compute. discriminate.
  - vm_compute. reflexivity.
  - vm_compute. lia.
Defined.

(** C6 (counterexample): a directory whose only line has the one-character
    station code "A" is loaded without any error; the station gets the
    empty id and the division "LAA". *)
Lemma C6_short_code_counterexample :
  Directory.load_station_list (Some ["A Alpha"]) =
    Ok (<["" := ("Alpha", "LAA")]> ∅, [""]) ∧
  ¬ ∃ e, Directory.load_station_list (Some ["A Alpha"]) = Raise e.
Proof.
  split; [vm_compute; reflexivity|].
  intros [e He]. vm_compute in He. discriminate He.
Qed.

(** ** The decoder *)

(** C5 (amended): each [fix_missing] is total and maps every raw value
    according to its encoding.  In generate_tables.py and in
    weather_summary_with_coordinates.py the missing marker becomes the
    sentinel -999, the trace marker 0, a parseable value its parse, and an
    unparseable value is returned unchanged.  In weather_data_fetcher.py
    the missing representation is NaN, and an unparseable value becomes NaN
    as well instead of passing through. *)
Theorem C5_fix_missing_total_by_encoding
    (float_of_string : string → option pyfloat) (v : pyval) :
  gt_fix_missing float_of_string v =
    Ok (match classify float_of_string v with
        | Missing => PFloat (Some sentinel)
        | Trace => PFloat (Some (num 0))
        | Number x => PFloat x
        | Unparseable => v
        end) ∧
  wc_fix_missing float_of_string v =
    Ok (match classify float_of_string v with
        | Missing => PFloat (Some sentinel)
        | Trace => PFloat (Some (num 0))
        | Number x => PFloat x
        | Unparseable => v
        end) ∧
  wdf_fix_missing float_of_string v =
    Ok (match classify float_of_string v with
        | Missing => nan
        | Trace => Some (num 0)
        | Number x => x
        | Unparseable => nan
        end).
Proof.
  unfold gt_fix_missing, wc_fix_missing, wdf_fix_missing, classify.
  destruct v as [|b|x|s|l]; simpl; try done.
  destruct (decide (s = "M")) as [->|HM]; [done|].
  rewrite bool_decide_eq_false_2 by done.
  destruct (decide (s = "T")) as [->|HT]; [done|].
  rewrite bool_decide_eq_false_2 by done.
  by destruct (float_of_string s).
Qed.

(** C5 (counterexample): the text "abc" is not a number; the
    [fix_missing] of weather_data_fetcher.py does not return it unchanged
    but turns it into NaN. *)
Lemma C5_fetcher_unparseable_counterexample :
  classify decimal_literal (PStr "abc") = Unparseable ∧
  PFloat <$> wdf_fix_missing decimal_literal (PStr "abc") = Ok (PFloat nan) ∧
  PFloat <$> wdf_fix_missing decimal_literal (PStr "abc") ≠ Ok (PStr "abc").
Proof.
  split; [vm_compute; reflexivity|].
  split; [vm_compute; reflexivity|].
  intros H. vm_compute in H. discriminate H.
Qed.

(** The guarded difference of generate_tables.py on decoded floats. *)
Lemma guarded_sub_floats (a b : pyfloat) :
  GenerateTables.guarded_sub (PFloat a) (PFloat b) =
  Ok (PFloat (if decide (a = Some sentinel ∨ b = Some sentinel) then nan
              else Py.fsub a b)).
Proof.
  unfold GenerateTables.guarded_sub, Py.eq_num. simpl.
  destruct (decide (a = Some sentinel ∨ b = Some sentinel)) as [H|H].
  - destruct H as [-> | ->]; simpl; [done|].
    by rewrite orb_true_r.
  - destruct a as [x|], b as [y|]; simpl; try done;
      rewrite ?bool_decide_eq_false_2; try done;
      intros ->; apply H; auto.
Qed.

(** C4 (failing input): weather_summary_with_coordinates.py subtracts the
    decoded operands without looking for the sentinel.  With total
    precipitation missing ("M") and normal precipitation 2.5 it reports the
    departure -999 - 2.5 = -1001.5, where generate_tables.py and
    weather_data_fetcher.py report a missing departure (NaN) for the same
    slots. *)
Theorem C4_with_coordinates_departure_of_missing :
  WeatherSummaryWithCoordinates.pcpn_dfn decimal_literal
    (pad17 (summary_with_precip (PStr "M") (PStr "2.5")))
    = Ok (PFloat (Some (Q2Qc (-2003 # 2)))) ∧
  (a ← gt_fix_missing decimal_literal (PStr "M");
   b ← gt_fix_missing decimal_literal (PStr "2.5");
   GenerateTables.guarded_sub a b) = Ok (PFloat nan) ∧
  (a ← wdf_fix_missing decimal_literal (PStr "M");
   b ← wdf_fix_missing decimal_literal (PStr "2.5");
   Ok (WeatherDataFetcher.pcpn_dfn a b)) = Ok nan.
Proof. repeat split; qc_eq. Qed.

Lemma pad17_length (smry : list pyval) : 17 ≤ length (pad17 smry).
Proof. unfold pad17. rewrite length_app, length_replicate. lia. Qed.

(** After padding, the first 17 slots can always be read. *)
Lemma index_slot (s : station) (i : nat) :
  i < 17 → Py.index (pad17 (st_smry s)) i = Ok (slot_of s i).
Proof.
  intros Hi. unfold Py.index, slot_of.
  destruct (pad17 (st_smry s) !! i) as [v|] eqn:E; [done|].
  apply lookup_ge_None in E. pose proof (pad17_length (st_smry s)). lia.
Qed.

Lemma second_or_unpaired (v d : pyval) :
  is_pair v = false → Py.second_or v d = d.
Proof. by destruct v as [| | | |[|? [|? ?]]]. Qed.

(** Runs a hypothesis [m ≫= k = Ok r] through the binds of a decoder. *)
Ltac invert_binds H :=
  repeat match type of H with
         | mbind _ ?m = Ok _ =>
             let E := fresh "E" in
             destruct m eqn:E; simpl in H; [|discriminate H]
         | (let '(_, _) := ?p in _) = Ok _ => destruct p
         end.

Lemma wdf_missing_counts f g d (s : station) (r : WeatherDataFetcher.row) :
  WeatherDataFetcher.process_station f g d s = Ok r →
  WeatherDataFetcher.Missing_T_Avg r =
    Py.second_or (slot_of s 15) (PFloat (Some (num 0))) ∧
  WeatherDataFetcher.Missing_Total_P r =
    Py.second_or (slot_of s 16) (PFloat (Some (num 0))).
Proof.
  unfold WeatherDataFetcher.process_station. intros H.
  rewrite !index_slot in H by lia. simpl in H.
  invert_binds H.
  injection H as <-. done.
Qed.

Lemma gt_missing_counts f d (s : station) (r : GenerateTables.row) :
  GenerateTables.process_station f d s = Ok r →
  GenerateTables.Missing_T_Avg r =
    PFloat (to_numeric f (Py.second_or (slot_of s 15) (PFloat nan))) ∧
  GenerateTables.Missing_Total_P r =
    PFloat (to_numeric f (Py.second_or (slot_of s 16) (PFloat nan))).
Proof.
  unfold GenerateTables.process_station. intros H.
  rewrite !index_slot in H by lia. simpl in H.
  invert_binds H.
  injection H as <-. done.
Qed.

(** C8 (amended): when the slots for the missing-day counts of average
    temperature (15) and of total precipitation (16) are absent or not
    paired, weather_data_fetcher.py reports the counts as zero, while
    generate_tables.py reports them as NaN (missing). *)
Theorem C8_unpaired_missing_counts_defaults
    (float_of_string : string → option pyfloat)
    (reformat_date : string → option string)
    (station_dict : Directory.station_dict) (s : station) :
  is_pair (slot_of s 15) = false →
  is_pair (slot_of s 16) = false →
  (∀ r, WeatherDataFetcher.process_station float_of_string reformat_date
          station_dict s = Ok r →
        WeatherDataFetcher.Missing_T_Avg r = PFloat (Some (num 0)) ∧
        WeatherDataFetcher.Missing_Total_P r = PFloat (Some (num 0))) ∧
  (∀ r, GenerateTables.process_station float_of_string station_dict s = Ok r →
        GenerateTables.Missing_T_Avg r = PFloat nan ∧
        GenerateTables.Missing_Total_P r = PFloat nan).
Proof.
  intros H15 H16. split; intros r Hr.
  - apply wdf_missing_counts in Hr as [-> ->].
    by rewrite !second_or_unpaired.
  - apply gt_missing_counts in Hr as [-> ->].
    by rewrite !second_or_unpaired.
Qed.

Lemma C8_unpaired_missing_counts_defaults_witness :
  is_pair (slot_of station_without_counts 15) = false ∧
  is_pair (slot_of station_without_counts 16) = false ∧
  (∃ r, WeatherDataFetcher.process_station decimal_literal (λ _, None) ∅
          station_without_counts = Ok r ∧
        WeatherDataFetcher.Missing_T_Avg r = PFloat (Some (num 0)) ∧
        WeatherDataFetcher.Missing_Total_P r = PFloat (Some (num 0))) ∧
  (∃ r, GenerateTables.process_station decimal_literal ∅
          station_without_counts = Ok r ∧
        GenerateTables.Missing_T_Avg r = PFloat nan ∧
        GenerateTables.Missing_Total_P r = PFloat nan).
Proof.
  assert (H15 : is_pair (slot_of station_without_counts 15) = false)
    by reflexivity.
  assert (H16 : is_pair (slot_of station_without_counts 16) = false)
    by reflexivity.
  destruct (C8_unpaired_missing_counts_defaults decimal_literal (λ _, None) ∅
              station_without_counts H15 H16) as [Hf Hg].
  split; [exact H15|]. split; [exact H16|]. split.
  - eexists. split; [vm_compute; reflexivity|]. apply Hf.
    vm_compute; reflexivity.
  - eexists. split; [vm_compute; reflexivity|]. apply Hg.
    vm_compute; reflexivity.
Defined.

(** C8 (counterexample): generate_tables.py decodes a station entry whose
    summary has no paired missing-day counts into a row whose two counts
    are NaN, not zero. *)
Lemma C8_generate_tables_counts_counterexample :
  ∃ r, GenerateTables.process_station decimal_literal ∅
         station_without_counts = Ok r ∧
       GenerateTables.Missing_T_Avg r = PFloat nan ∧
       GenerateTables.Missing_Total_P r = PFloat nan ∧
       GenerateTables.Missing_T_Avg r ≠ PFloat (Some (num 0)) ∧
       GenerateTables.Missing_Total_P r ≠ PFloat (Some (num 0)).
Proof.
  eexists. split; [vm_compute; reflexivity|].
  repeat split; try (vm_compute; reflexivity); intros H; discriminate H.
Qed.

(** The fallback identity of generate_tables.py: a key that is not in the
    directory (or no key at all) gives the upstream name and division, or
    "Unknown". *)
Lemma gt_identity_fallback (d : Directory.station_dict) (m : meta)
    (sid : option string) :
  (∀ k, sid = Some k → d !! k = None) →
  GenerateTables.identity d m sid =
    (default "Unknown" (m_name m), default "Unknown" (m_climdiv m)).
Proof.
  intros H. unfold GenerateTables.identity.
  destruct sid as [k|]; [|done]. by rewrite (H k eq_refl).
Qed.

(** The identity resolution of weather_data_fetcher.py is total, and it
    falls back to the upstream name and division, or "Unknown", when there
    is no identifier or the identifier is not in the directory. *)
Lemma wdf_identity_fallback (d : Directory.station_dict) (m : meta) :
  (∀ k, WeatherDataFetcher.lookup_id m = Some k → d !! k = None) →
  WeatherDataFetcher.resolve_identity d m =
    WeatherDataFetcher.Identity
      (default "Unknown" (m_name m))
      (default "Unknown" (m_name m))
      (default "Unknown" (m_climdiv m)).
Proof.
  intros H. unfold WeatherDataFetcher.resolve_identity.
  destruct (WeatherDataFetcher.lookup_id m) as [k|] eqn:E.
  - rewrite (H k eq_refl). case_bool_decide; simpl; by destruct (m_name m).
  - simpl. by destruct (m_name m).
Qed.

(** C7 (failing input): a station entry whose list of alternate
    identifiers is empty.  generate_tables.py reads element 0 of the list
    and the run ends with [IndexError]; weather_data_fetcher.py treats the
    empty list as "no identifier" and produces the record with the
    upstream name and division. *)
Theorem C7_empty_identifier_list_fails_generate_tables :
  GenerateTables.process_station_data decimal_literal
    [station_without_sids] ∅ = Raise IndexError ∧
  (∀ d, GenerateTables.pipeline decimal_literal [station_without_sids] d
        = Raise IndexError) ∧
  (∀ reformat_date, ∃ r,
     WeatherDataFetcher.process_data decimal_literal reformat_date
       [station_without_sids] ∅ = Ok [r] ∧
     WeatherDataFetcher.Station_Name r = "DELTA" ∧
     WeatherDataFetcher.Station_Name_File r = "DELTA" ∧
     WeatherDataFetcher.Climate_Division r = "LA03").
Proof.
  split; [reflexivity|]. split; [reflexivity|].
  intros g. eexists. split; [vm_compute; reflexivity|]. done.
Qed.

(** The state row's percent of normal is the ratio of the means of the
    rows of the division sheet. *)
Lemma state_percent_ratio_of_means (df_div : list GenerateTables.row) :
  GenerateTables.State_Percent_of_Normal_HDD
    (GenerateTables.create_state_summary df_div) =
  ratio_of_means_percent
    (arithmetic_mean (member_values GenerateTables.HDD df_div))
    (arithmetic_mean (member_values GenerateTables.HDD_Normal df_div)).
Proof.
  simpl. rewrite percent_of_normal_ratio.
  by rewrite <-!(mean_column_replaced _ df_div).
Qed.

(** C1 (amended): in the end-to-end scenario generate_tables.py produces,
    in this order, the rows of division LA01, its summary (mean 20, normal
    mean 20, 100 percent), the row of division LA02 and its summary (mean 5,
    normal 10, 50 percent).  The state row is computed from the division
    summary rows: its heating degree days are the mean 12.5 of the division
    means, its normal the mean 15 of the division normals, and its percent
    of normal is the ratio of these two means, 250/3 (about 83.3 percent).
    For every table the state percent is that ratio of means over the
    division sheet.  weather_data_fetcher.py has no percent of normal and
    reduces its statewide row over all stations (mean 15). *)
Theorem C1_scenario_state_percent_is_ratio_of_division_means :
  (∀ df_final : list GenerateTables.row,
     GenerateTables.State_Percent_of_Normal_HDD
       (GenerateTables.state_summary_of df_final) =
     ratio_of_means_percent
       (arithmetic_mean (member_values GenerateTables.HDD
          (GenerateTables.division_sheet df_final)))
       (arithmetic_mean (member_values GenerateTables.HDD_Normal
          (GenerateTables.division_sheet df_final)))) ∧
  (∃ table state,
     scenario_run = Ok (table, state) ∧
     (λ r, (GenerateTables.Station_Name r, GenerateTables.Climate_Division r,
            GenerateTables.HDD r, GenerateTables.HDD_Normal r)) <$> table =
       [("ALPHA", "LA01", Some (num 10), Some (num 20));
        ("BETA", "LA01", Some (num 30), Some (num 20));
        ("Divisional Summary", "LA01", Some (num 20), Some (num 20));
        ("GAMMA", "LA02", Some (num 5), Some (num 10));
        ("Divisional Summary", "LA02", Some (num 5), Some (num 10))] ∧
     GenerateTables.Percent_of_Normal_HDD <$>
       GenerateTables.division_sheet table =
       [PFloat (Some (num 100)); PFloat (Some (num 50))] ∧
     state = GenerateTables.create_state_summary
               (GenerateTables.division_sheet table) ∧
     GenerateTables.State_HDD state = Some (Q2Qc (25 # 2)) ∧
     GenerateTables.State_HDD_Normal state = Some (num 15) ∧
     GenerateTables.State_Percent_of_Normal_HDD state = Some (Q2Qc (250 # 3))) ∧
  (∃ summaries,
     scenario_run_fetcher (λ _, Some "01/15") = Ok summaries ∧
     (λ s, (WeatherDataFetcher.S_Station_Name s,
            WeatherDataFetcher.S_HDD s)) <$> summaries =
       [("Northwest Division", Some (num 20));
        ("North Central Division", Some (num 5));
        ("STATE", Some (num 15))]).
Proof.
  split; [|split].
  - intros df_final. apply state_percent_ratio_of_means.
  - eexists _, _. split; [vm_compute; reflexivity|].
    repeat split; qc_eq.
  - eexists. split; [vm_compute; reflexivity|]. qc_eq.
Qed.

(** C1 (counterexample): in the end-to-end scenario the division percents
    are 100 and 50, whose mean is 75, but the state row's percent of normal
    is 250/3 and not 75. *)
Lemma C1_state_percent_counterexample :
  ∃ table state,
    scenario_run = Ok (table, state) ∧
    GenerateTables.Percent_of_Normal_HDD <$>
      GenerateTables.division_sheet table =
      [PFloat (Some (num 100)); PFloat (Some (num 50))] ∧
    Series.mean [Some (num 100); Some (num 50)] = Some (num 75) ∧
    GenerateTables.State_Percent_of_Normal_HDD state = Some (Q2Qc (250 # 3)) ∧
    GenerateTables.State_Percent_of_Normal_HDD state ≠ Some (num 75).
Proof.
  eexists _, _. split; [vm_compute; reflexivity|].
  split; [qc_eq|]. split; [qc_eq|]. split; [qc_eq|].
  intros H. vm_compute in H. discriminate H.
Qed.

(** * Further results *)

(** ** The station directory, continued *)














Lemma dict_of_keys (es : list Directory.entry) (k : string) :
  k ∈ Directory.station_id <$> es ↔ is_Some (dict_of es ∅ !! k).
Proof.
  rewrite dict_of_lookup, fmap_is_Some, list_elem_of_fmap. split.
  - intros (e & -> & He).
    assert (Hf : e ∈ filter (λ e', Directory.station_id e' =
                                   Directory.station_id e) es)
      by (apply list_elem_of_filter; done).
    destruct (filter _ es) as [|e0 es0]; [by apply elem_of_nil in Hf|].
    rewrite last_cons. destruct (last es0); eauto.
  - intros [e He]. apply last_Some in He as [l' Hl'].
    assert (Hf : e ∈ filter (λ e', Directory.station_id e' = k) es)
      by (rewrite Hl'; apply elem_of_app; right; left).
    apply list_elem_of_filter in Hf as [Hk Hin]. eauto.
Qed.

(** X2: the requested ids and the keys of the dictionary are the same ids:
    every requested id has a directory entry, and every directory entry was
    requested. *)
Theorem X2_requested_ids_are_the_dictionary_keys (lines : list string) :
  ∃ station_dict requested_ids,
    Directory.load_station_list (Some lines)
      = Ok (station_dict, requested_ids) ∧
    length requested_ids = length (Directory.entries lines) ∧
    ∀ k : string, k ∈ requested_ids ↔ is_Some (station_dict !! k).
Proof.
  unfold Directory.load_station_list. rewrite foldl_step_entries.
  eexists _, _. split; [done|]. simpl. split.
  - by rewrite length_fmap.
  - intros k. apply dict_of_keys.
Qed.

Lemma take_drop_string (n : nat) (s : string) :
  PyStr.take n s +:+ PyStr.drop n s = s.
Proof.
  revert s. induction n as [|n IH]; intros [|c s]; simpl; try done.
  change (String c (PyStr.take n s +:+ PyStr.drop n s) = String c s).
  by rewrite IH.
Qed.

Lemma drop_length (n : nat) (s : string) :
  String.length (PyStr.drop n s) = String.length s - n.
Proof.
  revert s. induction n as [|n IH]; intros [|c s]; simpl; try done.
Qed.

(** X3: an accepted line splits its station code without loss: the station
    id followed by the text after "LA" in the division code is the code,
    and for a code of two or more characters the division code is "LA"
    and exactly two characters. *)
Theorem X3_station_code_is_id_plus_division_digits
    (line : string) (e : Directory.entry) :
  Directory.parse_line line = Some e →
  ∃ raw_id name,
    PyStr.split_maxsplit1 (PyStr.strip line) = [raw_id; name] ∧
    Directory.file_station_name e = PyStr.strip name ∧
    Directory.station_id e +:+ PyStr.drop 2 (Directory.clim_div e)
      = PyStr.strip raw_id ∧
    PyStr.take 2 (Directory.clim_div e) = "LA" ∧
    (2 ≤ String.length (PyStr.strip raw_id) →
     String.length (Directory.clim_div e) = 4).
Proof.
  unfold Directory.parse_line. intros H.
  destruct (decide (PyStr.strip line = "")); [done|].
  destruct (PyStr.split_maxsplit1 (PyStr.strip line))
    as [|p0 [|p1 [|? ?]]]; try done.
  injection H as <-. exists p0, p1. simpl.
  split; [done|]. split; [done|]. split; [apply take_drop_string|].
  split; [done|].
  intros Hlen. unfold PyStr.last2.
  change (S (S (String.length
    (PyStr.drop (String.length (PyStr.strip p0) - 2) (PyStr.strip p0)))) = 4).
  rewrite drop_length. lia.
Qed.

Lemma X3_station_code_is_id_plus_division_digits_witness :
  ∃ raw_id name,
    PyStr.split_maxsplit1 (PyStr.strip "16053709   BATON ROUGE ")
      = [raw_id; name] ∧
    "BATON ROUGE" = PyStr.strip name ∧
    "160537" +:+ PyStr.drop 2 "LA09" = PyStr.strip raw_id ∧
    PyStr.take 2 "LA09" = "LA" ∧
    (2 ≤ String.length (PyStr.strip raw_id) → String.length "LA09" = 4).
Proof.
  apply (X3_station_code_is_id_plus_division_digits
           "16053709   BATON ROUGE "
           (Directory.Entry "160537" "BATON ROUGE" "LA09")).
  vm_compute. reflexivity.
Defined.

Lemma assign_keys {V} (k : string) (v : V) (d : list (string * V)) :
  (FetcherDirectory.assign k v d).*1 =
  if decide (k ∈ d.*1) then d.*1 else d.*1 ++ [k].
Proof.
  induction d as [|[k' v'] d IH].
  - destruct (decide (k ∈ ([] : list (string * V)).*1)) as [H|H]; [|done].
    by apply elem_of_nil in H.
  - cbn [FetcherDirectory.assign].
    destruct (decide (k' = k)) as [->|Hne].
    + destruct (decide (k ∈ ((k, v') :: d).*1)) as [H|H]; [done|].
      exfalso. apply H. left.
    + rewrite !fmap_cons, IH. cbn [fst].
      destruct (decide (k ∈ d.*1)) as [Hin|Hnin],
               (decide (k ∈ k' :: d.*1)) as [Hin'|Hnin']; try done.
      * exfalso. apply Hnin'. by right.
      * apply elem_of_cons in Hin' as [?|?]; congruence.
Qed.

Lemma assign_NoDup {V} (k : string) (v : V) (d : list (string * V)) :
  NoDup d.*1 → NoDup (FetcherDirectory.assign k v d).*1.
Proof.
  intros H. rewrite assign_keys. destruct (decide (k ∈ d.*1)); [done|].
  apply NoDup_app. split; [done|]. split; [|apply NoDup_singleton].
  intros x Hx ->%list_elem_of_singleton. done.
Qed.

Lemma assign_to_map {V} (k : string) (v : V) (d : list (string * V)) :
  (list_to_map (FetcherDirectory.assign k v d) : gmap string V) =
  <[k := v]> (list_to_map d).
Proof.
  induction d as [|[k' v'] d IH]; simpl; [done|].
  destruct (decide (k' = k)) as [->|Hne]; simpl.
  - by rewrite insert_insert_eq.
  - rewrite IH. by apply insert_insert_ne.
Qed.

Lemma load_stations_invariant (lines : list string)
    (acc : list (string * (string * string))) :
  NoDup acc.*1 →
  let stations :=
    foldl (λ stations line,
             match Directory.parse_line line with
             | Some e =>
                 FetcherDirectory.assign (Directory.station_id e)
                   (Directory.file_station_name e, Directory.clim_div e)
                   stations
             | None => stations
             end) acc lines in
  NoDup stations.*1 ∧
  (list_to_map stations : Directory.station_dict) =
    dict_of (Directory.entries lines) (list_to_map acc).
Proof.
  revert acc. induction lines as [|line lines IH]; intros acc Hacc; simpl.
  - done.
  - unfold Directory.entries. simpl.
    destruct (Directory.parse_line line) as [e|]; simpl.
    + destruct (IH _ (assign_NoDup (Directory.station_id e)
        (Directory.file_station_name e, Directory.clim_div e) acc Hacc))
        as [Hnd Hmap].
      split; [exact Hnd|]. rewrite Hmap. by rewrite assign_to_map.
    + by apply IH.
Qed.

(** X4: weather_data_fetcher.py requests the keys of its dictionary: each
    station id once, however often its code occurs in the file, and the
    same ids that generate_tables.py requests (there with repetitions);
    the two scripts load the same directory. *)
Theorem X4_fetcher_requests_each_id_once (lines : list string) :
  ∃ station_dict requested_ids,
    Directory.load_station_list (Some lines)
      = Ok (station_dict, requested_ids) ∧
    NoDup (FetcherDirectory.request_ids (FetcherDirectory.load_stations lines)) ∧
    (∀ k : string,
       k ∈ FetcherDirectory.request_ids (FetcherDirectory.load_stations lines)
       ↔ k ∈ requested_ids) ∧
    list_to_map (FetcherDirectory.load_stations lines) = station_dict.
Proof.
  unfold Directory.load_station_list. rewrite foldl_step_entries.
  eexists _, _. split; [done|]. simpl.
  destruct (load_stations_invariant lines [] (NoDup_nil_2)) as [Hnd Hmap].
  fold (FetcherDirectory.load_stations lines) in Hnd, Hmap.
  simpl in Hmap. change (list_to_map []) with (∅ : Directory.station_dict) in Hmap.
  split; [exact Hnd|]. split; [|exact Hmap].
  intros k. rewrite dict_of_keys, <-Hmap.
  unfold FetcherDirectory.request_ids. split.
  - intros ((k' & v) & -> & Hin)%list_elem_of_fmap.
    exists v. by apply elem_of_list_to_map_1.
  - intros [v Hv]. apply elem_of_list_to_map_2 in Hv.
    apply list_elem_of_fmap. by exists (k, v).
Qed.

(** ** The decoder of generate_tables.py, continued *)

Lemma gt_fix_missing_decoded f (v : pyval) :
  gt_fix_missing f v = Ok (gt_decoded f v).
Proof.
  unfold gt_fix_missing, gt_decoded, classify.
  destruct v as [|b|x|s|l]; simpl; try done.
  destruct (decide (s = "M")) as [->|HM]; [done|].
  rewrite bool_decide_eq_false_2 by done.
  destruct (decide (s = "T")) as [->|HT]; [done|].
  rewrite bool_decide_eq_false_2 by done.
  by destruct (f s).
Qed.

(** A decoded value is a float, or the raw value itself when that is no
    number for [float] (and then none for [pd.to_numeric]). *)
Lemma gt_decoded_cases f (v : pyval) :
  (∃ x, gt_decoded f v = PFloat x ∧ classify f v ≠ Unparseable) ∨
  (gt_decoded f v = v ∧ classify f v = Unparseable ∧
   Py.as_number (gt_decoded f v) = None ∧
   to_numeric f (gt_decoded f v) = nan).
Proof.
  unfold gt_decoded.
  destruct (classify f v) as [| |x|] eqn:E; [left; eauto..|right].
  split; [done|]. split; [done|].
  unfold classify in E. destruct v as [|b|x|s|l]; simpl in *; try done.
  unfold to_numeric. simpl.
  destruct (decide (s = "M")); [done|]. destruct (decide (s = "T")); [done|].
  by destruct (f s).
Qed.

Lemma gt_decoded_not_number f (v : pyval) :
  Py.as_number (gt_decoded f v) = None → classify f v = Unparseable.
Proof.
  intros H. destruct (gt_decoded_cases f v) as [(x & E & _)|(_ & ? & _)];
    [by rewrite E in H|done].
Qed.

Lemma guarded_sub_raise (a b : pyval) (e : exn) :
  GenerateTables.guarded_sub a b = Raise e →
  e = TypeError ∧ (Py.as_number a = None ∨ Py.as_number b = None).
Proof.
  unfold GenerateTables.guarded_sub, Py.sub.
  destruct (_ || _); [done|].
  destruct (Py.as_number a), (Py.as_number b); intros [= <-]; auto.
Qed.

(** Once the normal is computed, the station percent cannot raise. *)
Lemma station_percent_ok (a b n : pyval) :
  GenerateTables.guarded_sub a b = Ok n →
  ∃ p, GenerateTables.station_percent a n = Ok p.
Proof.
  unfold GenerateTables.guarded_sub, GenerateTables.station_percent.
  destruct (_ || _).
  - intros [= <-]. simpl. eauto.
  - unfold Py.sub. destruct (Py.as_number a) as [x|] eqn:Ea; [|done].
    destruct (Py.as_number b) as [y|]; [|done]. intros [= <-].
    unfold Py.percent, Py.eq_num. rewrite Ea. simpl.
    destruct (Py.fsub x y) as [q|]; simpl; [|eauto].
    destruct (bool_decide (q = num 0)) eqn:Eq; simpl; [eauto|].
    rewrite bool_decide_eq_false_2; [eauto|].
    intros [= ->]. by rewrite bool_decide_eq_true_2 in Eq.
Qed.

Lemma first_sid_cases (m : meta) :
  (GenerateTables.first_sid m = Raise IndexError ∧ m_sids m = Some []) ∨
  (∃ sid, GenerateTables.first_sid m = Ok sid ∧ m_sids m ≠ Some []).
Proof.
  unfold GenerateTables.first_sid.
  destruct (m_sids m) as [[|sid sids]|]; [left; done|right..].
  - destruct (bool_decide _); eauto.
  - eauto.
Qed.

(** The decoder with the slots read and decoded: what is left are the
    identifier, the three guarded differences and the two percents. *)
Ltac unfold_decoder H :=
  unfold GenerateTables.process_station in H;
  rewrite !index_slot in H by lia;
  cbn [mbind result_bind] in H;
  rewrite !gt_fix_missing_decoded in H;
  cbn [mbind result_bind] in H.

(** One guarded difference and the percent after it: either the
    difference raises, which ends the proof at hand by [tac], or both
    return. *)
Ltac step_difference H tac :=
  match type of H with
  | mbind _ (GenerateTables.guarded_sub ?a ?b) = _ =>
      let G := fresh "G" in
      let n := fresh "n" in
      destruct (GenerateTables.guarded_sub a b) as [n|?] eqn:G;
      cbn [mbind result_bind] in H;
      [try (let p := fresh "p" in
            let P := fresh "P" in
            destruct (station_percent_ok _ _ _ G) as [p P];
            rewrite P in H; cbn [mbind result_bind] in H)
      |tac G]
  end.

(** X5: the station decoder of generate_tables.py fails in two ways only:
    with [IndexError], exactly when the entry carries an empty identifier
    list, and with [TypeError], when one of the slots that enter a
    difference (6 to 11) holds a value that is no number.  It never
    divides by zero and never lets a [ValueError] of the parser escape. *)
Theorem X5_decoder_raises_index_or_type_error
    (float_of_string : string → option pyfloat)
    (station_dict : Directory.station_dict) (s : station) (e : exn) :
  GenerateTables.process_station float_of_string station_dict s = Raise e →
  (e = IndexError ∧ m_sids (st_meta s) = Some []) ∨
  (e = TypeError ∧ m_sids (st_meta s) ≠ Some [] ∧
   ∃ i, i ∈ [6; 7; 8; 9; 10; 11] ∧
        classify float_of_string (slot_of s i) = Unparseable).
Proof.
  intros H. unfold_decoder H.
  destruct (first_sid_cases (st_meta s)) as [[Hf Hs]|(sid & Hf & Hs)];
    rewrite Hf in H; cbn [mbind result_bind] in H.
  { left. by injection H as <-. }
  right.
  destruct (GenerateTables.identity _ _ _) as [file_name div].
  assert (Hraise : ∀ i j,
    i ∈ [6; 7; 8; 9; 10; 11] → j ∈ [6; 7; 8; 9; 10; 11] →
    GenerateTables.guarded_sub (gt_decoded float_of_string (slot_of s i))
      (gt_decoded float_of_string (slot_of s j)) = Raise e →
    e = TypeError ∧ m_sids (st_meta s) ≠ Some [] ∧
    ∃ i, i ∈ [6; 7; 8; 9; 10; 11] ∧
         classify float_of_string (slot_of s i) = Unparseable).
  { intros i j Hi Hj [-> [Hn|Hn]]%guarded_sub_raise;
      (split; [done|]); (split; [done|]);
      [exists i|exists j]; (split; [done|]);
      by apply gt_decoded_not_number. }
  step_difference H ltac:(fun G =>
    injection H as <-; apply (Hraise 6 7); [repeat constructor..|exact G]).
  step_difference H ltac:(fun G =>
    injection H as <-; apply (Hraise 8 9); [repeat constructor..|exact G]).
  step_difference H ltac:(fun G =>
    injection H as <-; apply (Hraise 10 11); [repeat constructor..|exact G]).
  discriminate H.
Qed.

Lemma X5_decoder_raises_index_or_type_error_witness :
  (IndexError = IndexError ∧ m_sids (st_meta station_without_sids) = Some []) ∨
  (IndexError = TypeError ∧ m_sids (st_meta station_without_sids) ≠ Some [] ∧
   ∃ i, i ∈ [6; 7; 8; 9; 10; 11] ∧
        classify decimal_literal (slot_of station_without_sids i)
          = Unparseable).
Proof.
  apply (X5_decoder_raises_index_or_type_error decimal_literal ∅
           station_without_sids IndexError).
  reflexivity.
Defined.

Lemma to_numeric_float f (x : pyfloat) : to_numeric f (PFloat x) = x.
Proof. done. Qed.

Lemma eq_num_decoded f (v : pyval) (q : Qc) :
  Py.eq_num (gt_decoded f v) q = true ↔
  to_numeric f (gt_decoded f v) = Some q.
Proof.
  destruct (gt_decoded_cases f v) as [(x & -> & _)|(_ & _ & Hn & Ht)].
  - unfold Py.eq_num. simpl. destruct x as [y|]; [|done].
    rewrite bool_decide_eq_true. split; [by intros ->|by intros [= ->]].
  - unfold Py.eq_num. rewrite Hn, Ht. done.
Qed.

(** X6: text that is no number in the heating-degree-day slot makes the
    decoder of generate_tables.py raise [TypeError], unless the departure
    next to it is missing: [fix_missing] hands the text on and the
    difference with the departure fails. *)
Theorem X6_text_in_degree_day_slot_raises_type_error
    (float_of_string : string → option pyfloat)
    (station_dict : Directory.station_dict) (s : station) :
  m_sids (st_meta s) ≠ Some [] →
  classify float_of_string (slot_of s 6) = Unparseable →
  to_numeric float_of_string (gt_decoded float_of_string (slot_of s 7))
    ≠ Some sentinel →
  GenerateTables.process_station float_of_string station_dict s
    = Raise TypeError.
Proof.
  intros Hs H6 H7. unfold GenerateTables.process_station.
  rewrite !index_slot by lia. cbn [mbind result_bind].
  rewrite !gt_fix_missing_decoded. cbn [mbind result_bind].
  destruct (first_sid_cases (st_meta s)) as [[_ ?]|(sid & -> & _)]; [done|].
  cbn [mbind result_bind].
  destruct (GenerateTables.identity _ _ _) as [file_name div].
  assert (G : GenerateTables.guarded_sub
                (gt_decoded float_of_string (slot_of s 6))
                (gt_decoded float_of_string (slot_of s 7)) = Raise TypeError).
  { unfold GenerateTables.guarded_sub.
    destruct (Py.eq_num (gt_decoded float_of_string (slot_of s 6)) sentinel)
      eqn:E6.
    { apply eq_num_decoded in E6.
      destruct (gt_decoded_cases float_of_string (slot_of s 6))
        as [(x & _ & Hc)|(_ & _ & _ & Ht)]; [done|].
      by rewrite Ht in E6. }
    destruct (Py.eq_num (gt_decoded float_of_string (slot_of s 7)) sentinel)
      eqn:E7.
    { by apply eq_num_decoded in E7. }
    simpl. unfold Py.sub.
    destruct (gt_decoded_cases float_of_string (slot_of s 6))
      as [(x & _ & Hc)|(_ & _ & -> & _)]; [done|]. done. }
  by rewrite G.
Qed.

Lemma X6_text_in_degree_day_slot_raises_type_error_witness :
  GenerateTables.process_station decimal_literal ∅ station_with_text_hdd
    = Raise TypeError.
Proof.
  apply (X6_text_in_degree_day_slot_raises_type_error decimal_literal ∅
           station_with_text_hdd).
  - discriminate.
  - vm_compute. reflexivity.
  - vm_compute. discriminate.
Defined.

Lemma guarded_sub_decoded f (a b n : pyval) :
  GenerateTables.guarded_sub (gt_decoded f a) (gt_decoded f b) = Ok n →
  n = PFloat (difference_unless_missing
                (to_numeric f (gt_decoded f a))
                (to_numeric f (gt_decoded f b))).
Proof.
  unfold difference_unless_missing.
  destruct (gt_decoded_cases f a) as [(x & Ea & _)|(_ & _ & Hna & Hta)],
           (gt_decoded_cases f b) as [(y & Eb & _)|(_ & _ & Hnb & Htb)].
  - rewrite Ea, Eb, guarded_sub_floats. by intros [= <-].
  - rewrite Ea, Htb. simpl. unfold GenerateTables.guarded_sub, Py.sub.
    unfold Py.eq_num at 2. rewrite Hnb. simpl.
    destruct (Py.eq_num (PFloat x) sentinel) eqn:E; simpl; [|done].
    intros [= <-]. rewrite decide_True; [done|]. left.
    unfold Py.eq_num in E. simpl in E. destruct x as [q|]; [|done].
    by apply bool_decide_eq_true in E as ->.
  - rewrite Eb, Hta. simpl. unfold GenerateTables.guarded_sub, Py.sub.
    unfold Py.eq_num at 1. rewrite Hna. simpl.
    destruct (Py.eq_num (PFloat y) sentinel) eqn:E; simpl; [|done].
    intros [= <-]. rewrite decide_True; [done|]. right.
    unfold Py.eq_num in E. simpl in E. destruct y as [q|]; [|done].
    by apply bool_decide_eq_true in E as ->.
  - unfold GenerateTables.guarded_sub, Py.sub, Py.eq_num.
    by rewrite Hna, Hnb.
Qed.

Lemma station_percent_decoded f (a : pyval) (z : pyfloat) (p : pyval) :
  GenerateTables.station_percent (gt_decoded f a) (PFloat z) = Ok p →
  p = percent_cell (to_numeric f (gt_decoded f a)) z.
Proof.
  unfold GenerateTables.station_percent, percent_cell, Py.eq_num. simpl.
  destruct z as [q|]; simpl; [|by intros [= <-]].
  destruct (decide (q = num 0)) as [->|Hq].
  - rewrite bool_decide_eq_true_2 by done. by intros [= <-].
  - rewrite bool_decide_eq_false_2 by done.
    unfold Py.percent.
    destruct (gt_decoded_cases f a) as [(x & -> & _)|(_ & _ & -> & _)];
      [|done].
    simpl. rewrite bool_decide_eq_false_2 by (by intros [= ->]).
    by intros [= <-].
Qed.

(** X7: every row that the decoder of generate_tables.py produces is
    consistent: the normal of a degree-day sum is the sum minus its
    departure, and the precipitation departure is the total minus the
    normal, each missing (NaN) when one of its operands is the sentinel;
    the station percent is the sum over its normal times 100, and a dash
    when the normal is missing or zero. *)
Theorem X7_decoded_row_is_consistent
    (float_of_string : string → option pyfloat)
    (station_dict : Directory.station_dict) (s : station)
    (r : GenerateTables.row) :
  GenerateTables.process_station float_of_string station_dict s = Ok r →
  GenerateTables.HDD_Normal r =
    difference_unless_missing (GenerateTables.HDD r)
      (GenerateTables.HDD_DFN r) ∧
  GenerateTables.CDD_Normal r =
    difference_unless_missing (GenerateTables.CDD r)
      (GenerateTables.CDD_DFN r) ∧
  GenerateTables.P_DFN r =
    difference_unless_missing (GenerateTables.Total_P r)
      (GenerateTables.Normal_P r) ∧
  GenerateTables.Percent_of_Normal_HDD r =
    percent_cell (GenerateTables.HDD r) (GenerateTables.HDD_Normal r) ∧
  GenerateTables.Percent_of_Normal_CDD r =
    percent_cell (GenerateTables.CDD r) (GenerateTables.CDD_Normal r).
Proof.
  intros H. unfold_decoder H.
  destruct (first_sid_cases (st_meta s)) as [[Hf _]|(sid & Hf & _)];
    rewrite Hf in H; cbn [mbind result_bind] in H; [discriminate H|].
  destruct (GenerateTables.identity _ _ _) as [file_name div].
  step_difference H ltac:(fun G => discriminate H).
  step_difference H ltac:(fun G => discriminate H).
  step_difference H ltac:(fun G => discriminate H).
  injection H as <-. cbn.
  apply guarded_sub_decoded in G as ->.
  apply guarded_sub_decoded in G0 as ->.
  apply guarded_sub_decoded in G1 as ->.
  apply station_percent_decoded in P as ->.
  apply station_percent_decoded in P0 as ->.
  rewrite !to_numeric_float. done.
Qed.

Lemma X7_decoded_row_is_consistent_witness :
  ∃ r, GenerateTables.process_station decimal_literal ∅
         station_without_counts = Ok r ∧
    GenerateTables.HDD_Normal r =
      difference_unless_missing (GenerateTables.HDD r)
        (GenerateTables.HDD_DFN r) ∧
    GenerateTables.CDD_Normal r =
      difference_unless_missing (GenerateTables.CDD r)
        (GenerateTables.CDD_DFN r) ∧
    GenerateTables.P_DFN r =
      difference_unless_missing (GenerateTables.Total_P r)
        (GenerateTables.Normal_P r) ∧
    GenerateTables.Percent_of_Normal_HDD r =
      percent_cell (GenerateTables.HDD r) (GenerateTables.HDD_Normal r) ∧
    GenerateTables.Percent_of_Normal_CDD r =
      percent_cell (GenerateTables.CDD r) (GenerateTables.CDD_Normal r).
Proof.
  eexists. split; [vm_compute; reflexivity|].
  apply (X7_decoded_row_is_consistent decimal_literal ∅
           station_without_counts).
  vm_compute. reflexivity.
Defined.

Lemma first_sid_some (m : meta) (sid : string) (sids : list string) :
  m_sids m = Some (sid :: sids) →
  GenerateTables.first_sid m = Ok (Some (PyStr.strip sid)).
Proof.
  unfold GenerateTables.first_sid. intros ->.
  case_bool_decide as Hsid; [|done]. by rewrite Hsid.
Qed.

(** X8: the directory is authoritative.  When the first alternate
    identifier of an entry, trimmed, is a key of the directory, the decoded
    row takes the file name and the division from the directory, whatever
    name and division the entry itself carries; the station name is the
    upstream name when there is one. *)
Theorem X8_directory_entry_overrides_upstream_identity
    (float_of_string : string → option pyfloat)
    (station_dict : Directory.station_dict) (s : station)
    (r : GenerateTables.row) (sid : string) (sids : list string)
    (name div : string) :
  GenerateTables.process_station float_of_string station_dict s = Ok r →
  m_sids (st_meta s) = Some (sid :: sids) →
  station_dict !! PyStr.strip sid = Some (name, div) →
  GenerateTables.Station_Name_File r = name ∧
  GenerateTables.Climate_Division r = div ∧
  GenerateTables.Station_Name r = default name (m_name (st_meta s)).
Proof.
  intros H Hsids Hd. unfold_decoder H.
  rewrite (first_sid_some _ _ _ Hsids) in H. cbn [mbind result_bind] in H.
  unfold GenerateTables.identity in H. rewrite Hd in H. simpl in H.
  step_difference H ltac:(fun G => discriminate H).
  step_difference H ltac:(fun G => discriminate H).
  step_difference H ltac:(fun G => discriminate H).
  by injection H as <-.
Qed.

Lemma X8_directory_entry_overrides_upstream_identity_witness :
  ∃ r, GenerateTables.process_station decimal_literal
         (<["000001" := ("ALPHA FIELD", "LA01")]> ∅)
         (station_entry " 000001 " "ALPHA" (Some "LA07") "10" "-10") = Ok r ∧
    GenerateTables.Station_Name_File r = "ALPHA FIELD" ∧
    GenerateTables.Climate_Division r = "LA01" ∧
    GenerateTables.Station_Name r = default "ALPHA FIELD" (Some "ALPHA").
Proof.
  eexists. split; [vm_compute; reflexivity|].
  apply (X8_directory_entry_overrides_upstream_identity decimal_literal
           (<["000001" := ("ALPHA FIELD", "LA01")]> ∅)
           (station_entry " 000001 " "ALPHA" (Some "LA07") "10" "-10")
           _ " 000001 " []).
  - vm_compute. reflexivity.
  - reflexivity.
  - vm_compute. reflexivity.
Defined.

Lemma process_station_data_length f (data : list station)
    (d : Directory.station_dict) (df : list GenerateTables.row) :
  GenerateTables.process_station_data f data d = Ok df →
  length df = length data.
Proof.
  revert df. induction data as [|s data IH]; intros df; simpl.
  - by intros [= <-].
  - destruct (GenerateTables.process_station f d s) as [r|]; [|done].
    cbn [mbind result_bind].
    destruct (GenerateTables.process_station_data f data d) as [df'|];
      [|done].
    cbn [mbind result_bind]. intros [= <-]. simpl. by rewrite (IH df').
Qed.

(** The first entry that fails decides the outcome of the frame. *)
Lemma process_station_data_raise f (data : list station)
    (d : Directory.station_dict) (e : exn) :
  GenerateTables.process_station_data f data d = Raise e →
  ∃ s, s ∈ data ∧ GenerateTables.process_station f d s = Raise e.
Proof.
  induction data as [|s data IH]; simpl; [done|].
  destruct (GenerateTables.process_station f d s) as [r|e'] eqn:E.
  - cbn [mbind result_bind].
    destruct (GenerateTables.process_station_data f data d) as [df'|e'];
      [done|].
    cbn [mbind result_bind]. intros [= <-].
    destruct (IH eq_refl) as (s' & Hin & Hs'). exists s'. split; [by right|done].
  - cbn [mbind result_bind]. intros [= <-]. exists s. split; [left|done].
Qed.

(** ** The assembled table of generate_tables.py *)

Section table_facts.

Import GenerateTables.

Lemma group_keys_elem (df : list row) (k : string) :
  k ∈ group_keys df ↔ k ∈ column Climate_Division df.
Proof.
  unfold group_keys. by rewrite merge_sort_Permutation, elem_of_remove_dups.
Qed.

Lemma group_keys_NoDup (df : list row) : NoDup (group_keys df).
Proof.
  unfold group_keys. rewrite merge_sort_Permutation. apply NoDup_remove_dups.
Qed.

Lemma group_keys_Sorted (df : list row) : Sorted String.le (group_keys df).
Proof. unfold group_keys. apply Sorted_merge_sort; apply _. Qed.

Lemma group_keys_nil (df : list row) : group_keys df = [] ↔ df = [].
Proof.
  split.
  - intros H. destruct df as [|r df]; [done|].
    assert (Hin : Climate_Division r ∈ group_keys (r :: df))
      by (apply group_keys_elem; left).
    rewrite H in Hin. by apply elem_of_nil in Hin.
  - by intros ->.
Qed.

Lemma group_nonempty (df : list row) (k : string) :
  k ∈ group_keys df → filter (λ r, Climate_Division r = k) df ≠ [].
Proof.
  intros (r & -> & Hr)%group_keys_elem%list_elem_of_fmap Hnil.
  assert (Hin : r ∈ filter (λ r', Climate_Division r' = Climate_Division r) df)
    by (by apply list_elem_of_filter).
  rewrite Hnil in Hin. by apply elem_of_nil in Hin.
Qed.

(** The summary row of a group carries the marker name, blank text
    fields and the division code of the group. *)
Lemma create_div_summary_labels (k : string) (g : list row) (s : row) :
  Forall (λ r, Climate_Division r = k) g →
  create_div_summary g = Ok s →
  Station_Name s = "Divisional Summary" ∧ Station_Name_File s = "" ∧
  Climate_Division s = k ∧ P_Max_Date s = PStr "" ∧
  Missing_T_Avg s = PStr "" ∧ Missing_Total_P s = PStr "".
Proof.
  intros Hk. unfold create_div_summary.
  destruct g as [|r g]; simpl; [done|].
  intros [= <-]. simpl. by apply Forall_cons_1 in Hk as [-> _].
Qed.

(** The assembled table, given the summary rows. *)
Lemma interleave_summaries (divisions : list (string * list row)) :
  match summaries_of divisions with
  | Ok ss =>
      interleave divisions =
        Ok (concat (zip_with (λ g s, g.2 ++ [s]) divisions ss)) ∧
      length ss = length divisions
  | Raise e => interleave divisions = Raise e
  end.
Proof.
  induction divisions as [|[k g] divisions IH]; simpl; [done|].
  destruct (create_div_summary g) as [s|e]; simpl; [|done].
  destruct (summaries_of divisions) as [ss|e]; simpl.
  - destruct IH as [-> Hlen]. simpl. split; [|by rewrite Hlen].
    by rewrite <-app_assoc.
  - by rewrite IH.
Qed.

Lemma summaries_of_ok (divisions : list (string * list row)) :
  Forall (λ g, g.2 ≠ []) divisions →
  ∃ ss, summaries_of divisions = Ok ss.
Proof.
  induction 1 as [|[k g] divisions Hg _ [ss IH]]; simpl; [eauto|].
  destruct g as [|r g]; [done|].
  destruct (create_div_summary_ok r g) as [s ->]. simpl.
  rewrite IH. simpl. eauto.
Qed.

Lemma groupby_nonempty (df : list row) :
  Forall (λ g, g.2 ≠ []) (groupby df).
Proof.
  unfold groupby. apply Forall_fmap, Forall_forall.
  intros k Hk. simpl. by apply group_nonempty.
Qed.

Lemma interleaved_perm (divisions : list (string * list row)) (ss : list row) :
  length ss = length divisions →
  concat (zip_with (λ g s, g.2 ++ [s]) divisions ss) ≡ₚ
  concat divisions.*2 ++ ss.
Proof.
  revert ss. induction divisions as [|[k g] divisions IH]; intros [|s ss];
    simpl; try done.
  intros [= Hlen]. rewrite (IH ss Hlen).
  rewrite <-!app_assoc. f_equiv. simpl. apply Permutation_middle.
Qed.

(** Adding a row to the frame adds it to the group of its division and to
    no other group. *)
Lemma groups_cons (keys : list string) (r : row) (df : list row) :
  NoDup keys → Climate_Division r ∈ keys →
  concat ((λ k, filter (λ r', Climate_Division r' = k) (r :: df)) <$> keys) ≡ₚ
  r :: concat ((λ k, filter (λ r', Climate_Division r' = k) df) <$> keys).
Proof.
  induction keys as [|k keys IH]; intros Hnd Hin.
  - by apply elem_of_nil in Hin.
  - apply NoDup_cons in Hnd as [Hk Hnd]. rewrite !fmap_cons. simpl.
    destruct (decide (Climate_Division r = k)) as [Heq|Hne].
    + rewrite filter_cons_True by done. simpl. f_equiv. f_equiv.
      clear IH Hin. subst k.
      induction keys as [|k' keys IH']; [done|].
      apply not_elem_of_cons in Hk as [Hne Hk].
      rewrite !fmap_cons. simpl. rewrite filter_cons_False by done.
      f_equiv. apply IH'; [done|]. by apply NoDup_cons in Hnd as [_ ?].
    + rewrite filter_cons_False by done.
      apply elem_of_cons in Hin as [?|Hin]; [done|].
      rewrite (IH Hnd Hin). by rewrite Permutation_middle.
Qed.

Lemma groups_partition (keys : list string) (df : list row) :
  NoDup keys → (∀ r, r ∈ df → Climate_Division r ∈ keys) →
  concat ((λ k, filter (λ r, Climate_Division r = k) df) <$> keys) ≡ₚ df.
Proof.
  intros Hnd. induction df as [|r df IH]; intros Hall.
  - clear. induction keys as [|k keys IH]; [done|].
    rewrite fmap_cons. simpl. exact IH.
  - rewrite groups_cons; [|done|apply Hall; left].
    f_equiv. apply IH. intros r' Hr'. apply Hall. by right.
Qed.

Lemma groupby_partition (df : list row) : concat (groupby df).*2 ≡ₚ df.
Proof.
  unfold groupby. rewrite <-list_fmap_compose.
  apply groups_partition; [apply group_keys_NoDup|].
  intros r Hr. apply group_keys_elem. unfold column.
  by apply list_elem_of_fmap_2.
Qed.

End table_facts.

Lemma create_divisional_summaries_layout (df : list GenerateTables.row) :
  df ≠ [] →
  ∃ ss, division_summaries df = Ok ss ∧
    length ss = length (GenerateTables.group_keys df) ∧
    GenerateTables.create_divisional_summaries df =
      Ok (concat (zip_with (λ g s, g.2 ++ [s]) (GenerateTables.groupby df) ss)).
Proof.
  intros Hdf.
  destruct (summaries_of_ok _ (groupby_nonempty df)) as [ss Hss].
  exists ss. unfold division_summaries. split; [done|].
  pose proof (interleave_summaries (GenerateTables.groupby df)) as H.
  rewrite Hss in H. destruct H as [Hi Hlen].
  assert (Hlen' : length ss = length (GenerateTables.group_keys df)).
  { rewrite Hlen. unfold GenerateTables.groupby. by rewrite length_fmap. }
  split; [done|].
  unfold GenerateTables.create_divisional_summaries.
  destruct (GenerateTables.groupby df) as [|g gs] eqn:E; [|done].
  exfalso. apply Hdf, group_keys_nil.
  unfold GenerateTables.groupby in E. by apply fmap_nil_inv in E.
Qed.

(** X9: [create_divisional_summaries] fails on an empty frame (with the
    [ValueError] of [pd.concat]) and on no other frame.  The table it
    assembles keeps every station row exactly once and adds exactly one
    summary row per distinct division. *)
Theorem X9_table_is_the_frame_plus_one_summary_per_division
    (df : list GenerateTables.row) :
  match df with
  | [] => GenerateTables.create_divisional_summaries df = Raise ValueError
  | _ =>
      ∃ table ss,
        GenerateTables.create_divisional_summaries df = Ok table ∧
        division_summaries df = Ok ss ∧
        table ≡ₚ df ++ ss ∧
        length ss = length (remove_dups (GenerateTables.Climate_Division <$> df)) ∧
        length table =
          length df + length (remove_dups (GenerateTables.Climate_Division <$> df))
  end.
Proof.
  destruct df as [|r df]; [done|].
  destruct (create_divisional_summaries_layout (r :: df)) as (ss & Hss & Hlen & Ht);
    [done|].
  assert (Hkeys : length (GenerateTables.group_keys (r :: df)) =
    length (remove_dups (GenerateTables.Climate_Division <$> r :: df))).
  { unfold GenerateTables.group_keys.
    apply Permutation_length, merge_sort_Permutation. }
  assert (Hperm : concat (zip_with (λ g s, g.2 ++ [s])
                    (GenerateTables.groupby (r :: df)) ss) ≡ₚ (r :: df) ++ ss).
  { rewrite interleaved_perm, groupby_partition; [done|].
    unfold GenerateTables.groupby. by rewrite length_fmap. }
  eexists _, ss. split; [exact Ht|]. split; [exact Hss|].
  split; [exact Hperm|]. split; [by rewrite Hlen, Hkeys|].
  rewrite Hperm, length_app, Hlen, Hkeys. done.
Qed.

Lemma summaries_of_divisions (keys : list string)
    (df ss : list GenerateTables.row) :
  summaries_of ((λ k, (k, filter (λ r, GenerateTables.Climate_Division r = k) df))
                  <$> keys) = Ok ss →
  GenerateTables.Climate_Division <$> ss = keys ∧
  Forall (λ s, GenerateTables.Station_Name s = "Divisional Summary") ss.
Proof.
  revert ss. induction keys as [|k keys IH]; intros ss.
  - simpl. by intros [= <-].
  - rewrite fmap_cons. cbn [summaries_of].
    destruct (GenerateTables.create_div_summary _) as [s|] eqn:Es; [|done].
    cbn [mbind result_bind].
    destruct (summaries_of _) as [ss'|]; [|done].
    cbn [mbind result_bind]. intros [= <-].
    destruct (IH ss' eq_refl) as [Hk Hn].
    destruct (create_div_summary_labels k _ s (group_uniform k df) Es)
      as (Hname & _ & Hdiv & _).
    split; [by rewrite fmap_cons, Hdiv, Hk|]. by constructor.
Qed.

(** X10: the layout of the table.  The divisions come in ascending order
    of their code, each code once, and exactly the codes that occur in the
    frame; the table is, division after division, the station rows of the
    division in frame order followed by the summary row of the division,
    which carries that code and the name "Divisional Summary". *)
Theorem X10_table_is_grouped_in_ascending_division_order
    (df table ss : list GenerateTables.row) :
  GenerateTables.create_divisional_summaries df = Ok table →
  division_summaries df = Ok ss →
  table = concat (zip_with (λ g s, g.2 ++ [s]) (GenerateTables.groupby df) ss) ∧
  (GenerateTables.groupby df).*1 = GenerateTables.Climate_Division <$> ss ∧
  Sorted String.le (GenerateTables.Climate_Division <$> ss) ∧
  NoDup (GenerateTables.Climate_Division <$> ss) ∧
  (∀ k, k ∈ GenerateTables.Climate_Division <$> ss ↔
        k ∈ GenerateTables.Climate_Division <$> df) ∧
  Forall (λ s, GenerateTables.Station_Name s = "Divisional Summary") ss.
Proof.
  intros Ht Hss.
  assert (Hdf : df ≠ []) by (by intros ->).
  destruct (create_divisional_summaries_layout df Hdf) as (ss' & Hss' & _ & Ht').
  rewrite Hss in Hss'. injection Hss' as <-.
  rewrite Ht in Ht'. injection Ht' as ->.
  unfold division_summaries, GenerateTables.groupby in Hss.
  apply summaries_of_divisions in Hss as [Hk Hn].
  split; [done|]. rewrite Hk.
  split; [unfold GenerateTables.groupby; rewrite <-list_fmap_compose;
          apply list_fmap_id|].
  split; [apply group_keys_Sorted|]. split; [apply group_keys_NoDup|].
  split; [apply group_keys_elem|done].
Qed.

Lemma X10_table_is_grouped_in_ascending_division_order_witness :
  ∃ table ss,
    GenerateTables.create_divisional_summaries sample_frame = Ok table ∧
    division_summaries sample_frame = Ok ss ∧
    GenerateTables.Station_Name <$> table =
      ["ALPHA"; "BETA"; "Divisional Summary"; "GAMMA"; "Divisional Summary"] ∧
    table = concat (zip_with (λ g s, g.2 ++ [s])
                      (GenerateTables.groupby sample_frame) ss) ∧
    (GenerateTables.groupby sample_frame).*1 =
      GenerateTables.Climate_Division <$> ss ∧
    Sorted String.le (GenerateTables.Climate_Division <$> ss) ∧
    NoDup (GenerateTables.Climate_Division <$> ss) ∧
    (∀ k, k ∈ GenerateTables.Climate_Division <$> ss ↔
          k ∈ GenerateTables.Climate_Division <$> sample_frame) ∧
    Forall (λ s, GenerateTables.Station_Name s = "Divisional Summary") ss.
Proof.
  eexists _, _. split; [vm_compute; reflexivity|].
  split; [vm_compute; reflexivity|]. split; [vm_compute; reflexivity|].
  apply (X10_table_is_grouped_in_ascending_division_order sample_frame);
    vm_compute; reflexivity.
Defined.

Lemma division_sheet_of_layout (divisions : list (string * list GenerateTables.row))
    (ss : list GenerateTables.row) :
  length ss = length divisions →
  Forall (λ g, Forall (λ r, GenerateTables.Station_Name r ≠ "Divisional Summary") g.2)
    divisions →
  Forall (λ s, GenerateTables.Station_Name s = "Divisional Summary") ss →
  GenerateTables.division_sheet
    (concat (zip_with (λ g s, g.2 ++ [s]) divisions ss)) = ss.
Proof.
  unfold GenerateTables.division_sheet.
  revert ss. induction divisions as [|[k g] divisions IH]; intros [|s ss];
    simpl; try done.
  intros [= Hlen] [Hg Hgs]%Forall_cons_1 [Hs Hss]%Forall_cons_1.
  rewrite !filter_app, (IH ss Hlen Hgs Hss).
  rewrite filter_cons_True by done. rewrite filter_nil. simpl in *.
  replace (filter _ g) with ([] : list GenerateTables.row); [done|].
  symmetry. clear -Hg. induction Hg as [|r g Hr _ IHg]; [done|].
  by rewrite filter_cons_False.
Qed.

(** X11: when no station is itself named "Divisional Summary", the
    division sheet that export_to_excel filters out of the table is exactly
    the list of division summary rows, in division order, and the state row
    is the reduction of these rows. *)
Theorem X11_division_sheet_is_the_summary_rows
    (df table : list GenerateTables.row) :
  Forall (λ r, GenerateTables.Station_Name r ≠ "Divisional Summary") df →
  GenerateTables.create_divisional_summaries df = Ok table →
  division_summaries df = Ok (GenerateTables.division_sheet table) ∧
  GenerateTables.state_summary_of table =
    GenerateTables.create_state_summary (GenerateTables.division_sheet table) ∧
  length (GenerateTables.division_sheet table) =
    length (remove_dups (GenerateTables.Climate_Division <$> df)).
Proof.
  intros Hnames Ht.
  assert (Hdf : df ≠ []) by (by intros ->).
  destruct (create_divisional_summaries_layout df Hdf) as (ss & Hss & Hlen & Ht').
  rewrite Ht in Ht'. injection Ht' as ->.
  assert (Hsheet : GenerateTables.division_sheet
    (concat (zip_with (λ g s, g.2 ++ [s]) (GenerateTables.groupby df) ss)) = ss).
  { apply division_sheet_of_layout.
    - rewrite Hlen. unfold GenerateTables.groupby. by rewrite length_fmap.
    - unfold GenerateTables.groupby. apply Forall_fmap, Forall_forall.
      intros k _. simpl. apply Forall_forall.
      intros r [_ Hr]%list_elem_of_filter.
      by apply (proj1 (Forall_forall _ _) Hnames).
    - unfold division_summaries, GenerateTables.groupby in Hss.
      by apply summaries_of_divisions in Hss as [_ ?]. }
  unfold GenerateTables.state_summary_of. rewrite Hsheet.
  split; [done|]. split; [done|].
  rewrite Hlen. unfold GenerateTables.group_keys.
  apply Permutation_length, merge_sort_Permutation.
Qed.

Lemma X11_division_sheet_is_the_summary_rows_witness :
  ∃ table,
    GenerateTables.create_divisional_summaries sample_frame = Ok table ∧
    division_summaries sample_frame =
      Ok (GenerateTables.division_sheet table) ∧
    GenerateTables.state_summary_of table =
      GenerateTables.create_state_summary
        (GenerateTables.division_sheet table) ∧
    length (GenerateTables.division_sheet table) =
      length (remove_dups (GenerateTables.Climate_Division <$> sample_frame)).
Proof.
  eexists. split; [vm_compute; reflexivity|].
  apply (X11_division_sheet_is_the_summary_rows sample_frame).
  - repeat constructor; vm_compute; discriminate.
  - vm_compute. reflexivity.
Defined.

Lemma process_station_raise_kind f (d : Directory.station_dict)
    (s : station) (e : exn) :
  GenerateTables.process_station f d s = Raise e →
  e = IndexError ∨ e = TypeError.
Proof.
  intros H. unfold_decoder H.
  destruct (first_sid_cases (st_meta s)) as [[Hf _]|(sid & Hf & _)];
    rewrite Hf in H; cbn [mbind result_bind] in H.
  { left. by injection H as <-. }
  right. destruct (GenerateTables.identity _ _ _) as [file_name div].
  step_difference H ltac:(fun G =>
    injection H as <-; by apply guarded_sub_raise in G as [-> _]).
  step_difference H ltac:(fun G =>
    injection H as <-; by apply guarded_sub_raise in G as [-> _]).
  step_difference H ltac:(fun G =>
    injection H as <-; by apply guarded_sub_raise in G as [-> _]).
  discriminate H.
Qed.

(** X12: the run of generate_tables.py, from the station file and the
    response to the table, ends in one of three ways only.  It exits with
    status 1 exactly when the file is missing or the response has no
    station; it stops with the [IndexError] or [TypeError] of the decoder
    of some entry; or it returns the table, which then has one row per
    entry and one per division.  The [ValueError] of an empty table cannot
    happen. *)
Theorem X12_run_exits_fails_in_the_decoder_or_returns
    (float_of_string : string → option pyfloat)
    (file : option (list string)) (response : list station) :
  match Main.run float_of_string file response with
  | Raise (SystemExit code) => code = 1%Z ∧ (file = None ∨ response = [])
  | Raise e =>
      file ≠ None ∧ response ≠ [] ∧ (e = IndexError ∨ e = TypeError)
  | Ok table =>
      file ≠ None ∧ response ≠ [] ∧
      ∃ df, length df = length response ∧
        length table =
          length df +
          length (remove_dups (GenerateTables.Climate_Division <$> df))
  end.
Proof.
  unfold Main.run. destruct file as [lines|]; simpl; [|auto].
  destruct (foldl Directory.step (∅, []) lines) as [d ids].
  destruct response as [|s0 response]; simpl; [auto|].
  destruct (GenerateTables.process_station float_of_string d s0) as [r0|e0]
    eqn:E0; cbn [mbind result_bind].
  - destruct (GenerateTables.process_station_data float_of_string response d)
      as [df|e] eqn:E; cbn [mbind result_bind].
    + pose proof (X9_aux := create_divisional_summaries_layout (r0 :: df)).
      destruct X9_aux as (ss & Hss & Hlen & ->); [done|].
      split; [done|]. split; [done|]. exists (r0 :: df).
      split; [simpl; by rewrite (process_station_data_length _ _ _ _ E)|].
      rewrite interleaved_perm, groupby_partition, length_app, Hlen.
      * unfold GenerateTables.group_keys.
        by rewrite (Permutation_length (merge_sort_Permutation _ _)).
      * unfold GenerateTables.groupby. by rewrite length_fmap.
    + apply process_station_data_raise in E as (s & _ & Hs).
      apply process_station_raise_kind in Hs as [-> | ->]; auto.
  - apply process_station_raise_kind in E0 as [-> | ->]; auto.
Qed.

(** ** Reductions of a division, continued *)

Lemma member_values_elem (c : GenerateTables.row → pyfloat)
    (g : list GenerateTables.row) (x : Qc) :
  x ∈ member_values c g ↔ x ≠ sentinel ∧ ∃ r, r ∈ g ∧ c r = Some x.
Proof.
  unfold member_values. by rewrite list_elem_of_filter, list_elem_of_omap.
Qed.





Lemma num_one : num (Z.of_nat 1) = 1%Qc.
Proof. apply Qc_is_canon. reflexivity. Qed.

Lemma num_zero : num 0 = 0%Qc.
Proof. apply Qc_is_canon. reflexivity. Qed.

Lemma mean_singleton (x : pyfloat) : Series.mean [x] = x.
Proof.
  unfold Series.mean, Series.valid. destruct x as [q|]; simpl; [|done].
  unfold Series.count, Series.total. simpl.
  rewrite num_one, num_zero. f_equal.
  rewrite Qcplus_0_r. apply (right_id 1%Qc Qcdiv).
Qed.

Lemma max_singleton (x : pyfloat) : Series.max [x] = x.
Proof. by destruct x. Qed.

Lemma min_singleton (x : pyfloat) : Series.min [x] = x.
Proof. by destruct x. Qed.

(** X14: the summary of a division with a single station repeats the
    measures of that station, with the sentinel turned into NaN; its
    percent of normal is the station's sum over the station's normal. *)
Theorem X14_single_station_division_repeats_the_station
    (r : GenerateTables.row) :
  ∃ s, GenerateTables.create_div_summary [r] = Ok s ∧
    GenerateTables.Climate_Division s = GenerateTables.Climate_Division r ∧
    GenerateTables.T_Avg s =
      Series.replace_sentinel (GenerateTables.T_Avg r) ∧
    GenerateTables.Highest_T_Max s =
      Series.replace_sentinel (GenerateTables.Highest_T_Max r) ∧
    GenerateTables.Lowest_T_Min s =
      Series.replace_sentinel (GenerateTables.Lowest_T_Min r) ∧
    GenerateTables.HDD s = Series.replace_sentinel (GenerateTables.HDD r) ∧
    GenerateTables.HDD_Normal s =
      Series.replace_sentinel (GenerateTables.HDD_Normal r) ∧
    GenerateTables.Total_P s =
      Series.replace_sentinel (GenerateTables.Total_P r) ∧
    GenerateTables.P_DFN s =
      Series.replace_sentinel (GenerateTables.P_DFN r) ∧
    GenerateTables.Percent_of_Normal_HDD s =
      PFloat (ratio_of_means_percent
                (Series.replace_sentinel (GenerateTables.HDD r))
                (Series.replace_sentinel (GenerateTables.HDD_Normal r))).
Proof.
  eexists. split; [reflexivity|]. cbn.
  rewrite percent_of_normal_ratio.
  unfold GenerateTables.column. cbn.
  rewrite !mean_singleton, !max_singleton, !min_singleton. done.
Qed.

Lemma member_values_all_missing (c : GenerateTables.row → pyfloat)
    (g : list GenerateTables.row) :
  (∀ r, r ∈ g → c r = None ∨ c r = Some sentinel) →
  member_values c g = [].
Proof.
  intros H. destruct (member_values c g) as [|x xs] eqn:E; [done|].
  assert (Hx : x ∈ member_values c g) by (rewrite E; left).
  apply member_values_elem in Hx as (Hs & r & Hr & Hc).
  destruct (H r Hr) as [Hn|Hn]; rewrite Hn in Hc; [done|].
  by injection Hc as <-.
Qed.

(** X15: a division in which no station has a usable heating-degree-day
    sum (each is NaN or the sentinel) gets NaN as its mean, and NaN as its
    percent of normal whatever the normals are: nothing is averaged and no
    sentinel leaks into the summary. *)
Theorem X15_division_without_usable_values_is_missing
    (g : list GenerateTables.row) (s : GenerateTables.row) :
  GenerateTables.create_div_summary g = Ok s →
  (∀ r, r ∈ g →
     GenerateTables.HDD r = None ∨ GenerateTables.HDD r = Some sentinel) →
  GenerateTables.HDD s = nan ∧
  GenerateTables.Percent_of_Normal_HDD s = PFloat nan.
Proof.
  intros Hs Hall. unfold GenerateTables.create_div_summary in Hs.
  destruct (GenerateTables.column GenerateTables.Climate_Division g)
    as [|d ds]; [done|].
  injection Hs as <-. cbn.
  rewrite percent_of_normal_ratio.
  rewrite !(mean_column_replaced GenerateTables.HDD) by done.
  rewrite (member_values_all_missing _ _ Hall). simpl.
  split; [done|]. unfold ratio_of_means_percent.
  destruct (Series.mean _) as [n|]; [|done].
  by destruct (decide (n = num 0)).
Qed.

Lemma X15_division_without_usable_values_is_missing_witness :
  ∃ s, GenerateTables.create_div_summary
         [measured_row "MIDDLE" "LA05" (-999) (-999) (-999) 20] = Ok s ∧
    GenerateTables.HDD s = nan ∧
    GenerateTables.Percent_of_Normal_HDD s = PFloat nan.
Proof.
  eexists. split; [vm_compute; reflexivity|].
  apply (X15_division_without_usable_values_is_missing
           [measured_row "MIDDLE" "LA05" (-999) (-999) (-999) 20]).
  - vm_compute. reflexivity.
  - intros r ->%list_elem_of_singleton. right. reflexivity.
Defined.

(** ** weather_data_fetcher.py, continued *)

Lemma wdf_fix_missing_decoded f (v : pyval) :
  wdf_fix_missing f v = Ok (wdf_decoded f v).
Proof.
  unfold wdf_fix_missing, wdf_decoded, classify.
  destruct v as [|b|x|s|l]; simpl; try done.
  destruct (decide (s = "M")) as [->|HM]; [done|].
  rewrite bool_decide_eq_false_2 by done.
  destruct (decide (s = "T")) as [->|HT]; [done|].
  rewrite bool_decide_eq_false_2 by done.
  by destruct (f s).
Qed.

Lemma max_precip_date_unpaired g (v : pyval) :
  is_pair v = false → WeatherDataFetcher.max_precip_date g v = Ok PNone.
Proof.
  intros H. unfold WeatherDataFetcher.max_precip_date.
  by rewrite (second_or_unpaired v PNone H).
Qed.

(** X16: the decoder of weather_data_fetcher.py does not fail on the
    numeric slots, whatever they hold.  Whenever the peak-precipitation
    slot is not a pair and the entry has no coordinates or at least two,
    the entry is decoded; every slot that is no number becomes NaN, and the
    precipitation departure is the total minus the normal, NaN when one of
    the two is NaN. *)
Theorem X16_fetcher_decodes_any_numeric_slots
    (float_of_string : string → option pyfloat)
    (reformat_date : string → option string)
    (stations : Directory.station_dict) (s : station) :
  is_pair (slot_of s 13) = false →
  (m_ll (st_meta s) = None ∨
   ∃ lat lon rest, m_ll (st_meta s) = Some (lat :: lon :: rest)) →
  ∃ r, WeatherDataFetcher.process_station float_of_string reformat_date
         stations s = Ok r ∧
    WeatherDataFetcher.HDD r = wdf_decoded float_of_string (slot_of s 6) ∧
    WeatherDataFetcher.Total_P r = wdf_decoded float_of_string (slot_of s 10) ∧
    WeatherDataFetcher.Normal_P r = wdf_decoded float_of_string (slot_of s 11) ∧
    WeatherDataFetcher.P_DFN r =
      WeatherDataFetcher.pcpn_dfn (WeatherDataFetcher.Total_P r)
        (WeatherDataFetcher.Normal_P r) ∧
    WeatherDataFetcher.P_Max_Date r = PNone.
Proof.
  intros H13 Hll. unfold WeatherDataFetcher.process_station.
  rewrite !index_slot by lia. cbn [mbind result_bind].
  rewrite !wdf_fix_missing_decoded. cbn [mbind result_bind].
  rewrite (max_precip_date_unpaired _ _ H13). cbn [mbind result_bind].
  destruct Hll as [->|(lat & lon & rest & ->)]; simpl;
    eexists; (split; [reflexivity|]); done.
Qed.

Lemma X16_fetcher_decodes_any_numeric_slots_witness :
  ∃ r, WeatherDataFetcher.process_station decimal_literal (λ _, None) ∅
         (Station (Meta (Some "NORTH") (Some "LA05") (Some ["100001"]) None)
            (summary_with_precip (PStr "n/a") (PStr "2.5"))) = Ok r ∧
    WeatherDataFetcher.Total_P r = nan ∧
    WeatherDataFetcher.P_DFN r = nan.
Proof.
  destruct (X16_fetcher_decodes_any_numeric_slots decimal_literal (λ _, None) ∅
    (Station (Meta (Some "NORTH") (Some "LA05") (Some ["100001"]) None)
       (summary_with_precip (PStr "n/a") (PStr "2.5"))))
    as (r & Hr & _ & Ht & Hn & Hd & _).
  - reflexivity.
  - left. reflexivity.
  - exists r. split; [exact Hr|]. rewrite Hd, Ht. split; reflexivity.
Defined.

(** X17: the decoder of weather_data_fetcher.py fails in two places only:
    on the date of the peak precipitation, when the slot is a pair whose
    second element is not a well-formed date ([ValueError]) or not text
    ([TypeError]), and on the coordinates, when the entry carries fewer
    than two ([IndexError]). *)
Theorem X17_fetcher_fails_on_date_or_coordinates_only
    (float_of_string : string → option pyfloat)
    (reformat_date : string → option string)
    (stations : Directory.station_dict) (s : station) (e : exn) :
  WeatherDataFetcher.process_station float_of_string reformat_date
    stations s = Raise e →
  ((e = ValueError ∨ e = TypeError) ∧ is_pair (slot_of s 13) = true) ∨
  (e = IndexError ∧ ∃ ll, m_ll (st_meta s) = Some ll ∧ length ll < 2).
Proof.
  unfold WeatherDataFetcher.process_station.
  rewrite !index_slot by lia. cbn [mbind result_bind].
  rewrite !wdf_fix_missing_decoded. cbn [mbind result_bind].
  destruct (is_pair (slot_of s 13)) eqn:H13.
  - destruct (WeatherDataFetcher.max_precip_date _ _) as [p|e'] eqn:Ep.
    + cbn [mbind result_bind].
      destruct (m_ll (st_meta s)) as [[|lat [|lon rest]]|]; simpl;
        try (intros [= <-]; right; split; [done|];
             eexists; split; [done|simpl; lia]);
        done.
    + cbn [mbind result_bind]. intros [= <-]. left. split; [|done].
      unfold WeatherDataFetcher.max_precip_date in Ep.
      destruct (Py.truthy _); [|done].
      destruct (Py.second_or _ _); try (injection Ep as <-; auto).
      destruct (reformat_date s0); [done|]. injection Ep as <-; auto.
  - rewrite (max_precip_date_unpaired _ _ H13). cbn [mbind result_bind].
    destruct (m_ll (st_meta s)) as [[|lat [|lon rest]]|]; simpl;
      try (intros [= <-]; right; split; [done|];
           eexists; split; [done|simpl; lia]);
      done.
Qed.

Lemma X17_fetcher_fails_on_date_or_coordinates_only_witness :
  ((IndexError = ValueError ∨ IndexError = TypeError) ∧
   is_pair (slot_of (Station (Meta None None None (Some [PStr "30.5"])) []) 13)
     = true) ∨
  (IndexError = IndexError ∧
   ∃ ll, m_ll (st_meta (Station (Meta None None None (Some [PStr "30.5"])) []))
           = Some ll ∧ length ll < 2).
Proof.
  apply (X17_fetcher_fails_on_date_or_coordinates_only decimal_literal
           (λ _, None) ∅
           (Station (Meta None None None (Some [PStr "30.5"])) []) IndexError).
  vm_compute. reflexivity.
Defined.






(** ** weather_summary_with_coordinates.py, continued *)

Lemma wc_fix_missing_decoded f (v : pyval) :
  wc_fix_missing f v = Ok (gt_decoded f v).
Proof. exact (gt_fix_missing_decoded f v). Qed.

(** X20: weather_summary_with_coordinates.py computes the precipitation
    departure before anything else and without a guard, so text that is no
    number in the total or in the normal precipitation slot ends the run
    with [TypeError], for every entry and whatever the other slot holds. *)
Theorem X20_with_coordinates_text_precipitation_raises
    (float_of_string : string → option pyfloat)
    (station_dict : Directory.station_dict) (s : station) :
  classify float_of_string (slot_of s 10) = Unparseable ∨
  classify float_of_string (slot_of s 11) = Unparseable →
  WeatherSummaryWithCoordinates.process_station float_of_string
    station_dict s = Raise TypeError.
Proof.
  intros H. unfold WeatherSummaryWithCoordinates.process_station.
  destruct (match WeatherDataFetcher.lookup_id (st_meta s) with
            | Some k => _ | None => _ end) as [file_station_name clim_div].
  unfold WeatherSummaryWithCoordinates.pcpn_dfn.
  rewrite !index_slot by lia. cbn [mbind result_bind].
  rewrite !wc_fix_missing_decoded. cbn [mbind result_bind].
  assert (Hsub : Py.sub (gt_decoded float_of_string (slot_of s 10))
                   (gt_decoded float_of_string (slot_of s 11)) = Raise TypeError).
  { unfold Py.sub. destruct H as [H|H].
    - destruct (gt_decoded_cases float_of_string (slot_of s 10))
        as [(x & _ & Hc)|(_ & _ & -> & _)]; [done|]. done.
    - destruct (gt_decoded_cases float_of_string (slot_of s 11))
        as [(x & _ & Hc)|(_ & _ & -> & _)]; [done|].
      by destruct (Py.as_number _). }
  by rewrite Hsub.
Qed.

Lemma X20_with_coordinates_text_precipitation_raises_witness :
  WeatherSummaryWithCoordinates.process_station decimal_literal ∅
    (Station (Meta (Some "NORTH") (Some "LA05") (Some ["100001"]) None)
       (summary_with_precip (PStr "M") (PStr "n/a"))) = Raise TypeError.
Proof.
  apply (X20_with_coordinates_text_precipitation_raises decimal_literal ∅
    (Station (Meta (Some "NORTH") (Some "LA05") (Some ["100001"]) None)
       (summary_with_precip (PStr "M") (PStr "n/a")))).
  right. vm_compute. reflexivity.
Defined.

(** ** Names of the exported files *)

Lemma rsplit_dot_no_dot (s : string) :
  no_dot s = true → ExportFiles.rsplit_dot s = (s, None).
Proof.
  unfold no_dot. induction s as [|c s IH]; simpl; [done|].
  intros [Hc Hs]%andb_true_iff. rewrite (IH Hs).
  by destruct (bool_decide (c = "."%char)).
Qed.

Lemma rsplit_dot_last (b e : string) :
  no_dot e = true →
  ExportFiles.rsplit_dot (b +:+ "." +:+ e) = (b, Some e).
Proof.
  intros He. induction b as [|c b IH].
  - change ("" +:+ "." +:+ e) with (String "."%char e).
    simpl. by rewrite (rsplit_dot_no_dot e He).
  - change (String c b +:+ "." +:+ e) with (String c (b +:+ "." +:+ e)).
    simpl. by rewrite IH.
Qed.

Lemma rsplit_dot_rejoin (s : string) :
  match ExportFiles.rsplit_dot s with
  | (b, Some e) => s = b +:+ "." +:+ e ∧ no_dot e = true
  | (b, None) => s = b ∧ no_dot s = true
  end.
Proof.
  induction s as [|c s IH]; simpl; [done|].
  destruct (ExportFiles.rsplit_dot s) as [b [e|]].
  - destruct IH as [-> He]. done.
  - destruct IH as [<- Hs]. case_bool_decide as Hc.
    + subst c. done.
    + split; [done|]. unfold no_dot in *. simpl.
      by rewrite bool_decide_eq_false_2, Hs.
Qed.

(** X21: the exporters cut the output name at its last dot.  A name with
    an extension loses exactly the extension, so "name.ext" gives the files
    "name_stations.csv", "name_divisions.csv" and "name.html"; a name
    without a dot is used whole; and in every case the base and what was
    cut off give the name back. *)
Theorem X21_output_names_are_cut_at_the_last_dot (b e : string) :
  no_dot e = true →
  ExportFiles.base_name (b +:+ "." +:+ e) = b ∧
  ExportFiles.csv_files (b +:+ "." +:+ e) =
    (b +:+ "_stations.csv", b +:+ "_divisions.csv") ∧
  ExportFiles.html_file (b +:+ "." +:+ e) = b +:+ ".html" ∧
  ExportFiles.base_name e = e ∧
  (∀ s, match ExportFiles.rsplit_dot s with
        | (b1, Some e1) => s = b1 +:+ "." +:+ e1 ∧ no_dot e1 = true
        | (b1, None) => s = b1 ∧ no_dot s = true
        end).
Proof.
  intros He.
  unfold ExportFiles.csv_files, ExportFiles.html_file, ExportFiles.base_name.
  rewrite (rsplit_dot_last b e He), (rsplit_dot_no_dot e He). simpl.
  repeat split; try done. apply rsplit_dot_rejoin.
Qed.

Lemma X21_output_names_are_cut_at_the_last_dot_witness :
  ExportFiles.base_name ("reports/jan.2026" +:+ "." +:+ "xlsx")
    = "reports/jan.2026" ∧
  ExportFiles.csv_files ("reports/jan.2026" +:+ "." +:+ "xlsx") =
    ("reports/jan.2026" +:+ "_stations.csv",
     "reports/jan.2026" +:+ "_divisions.csv") ∧
  ExportFiles.html_file ("reports/jan.2026" +:+ "." +:+ "xlsx")
    = "reports/jan.2026" +:+ ".html".
Proof.
  destruct (X21_output_names_are_cut_at_the_last_dot "reports/jan.2026" "xlsx")
    as (H1 & H2 & H3 & _); [reflexivity|].
  split; [exact H1|]. split; [exact H2|exact H3].
Defined.
